(** * DCA journey dashboard: data aggregation, live blending, currency scale

    A shallow embedding of the dashboard's data service (CSV parsing,
    running-total aggregation, summary derivation, live price batch) and of
    the pure computations of the [App] component (conversion rate, live price
    selection, displayed chart series, live summary), followed by the
    properties established about them.

    Numbers.  A JavaScript [number] is modelled by [JsNum.num]: an exact
    rational, or one of NaN, +Infinity, -Infinity.  The arithmetic is the
    IEEE-754 one on the special values and exact on the finite ones: the
    rounding error of double arithmetic and the sign of zero are outside the
    model (a zero divisor is read as +0).  The properties of the aggregation,
    the live blending and the conversion stated over [JsNum] use sameness of
    expressions, order and the special values, which read the same on
    doubles; those on two-decimal rounding speak of the exact value of the
    number that is printed.  Where the rounding of doubles decides the
    matter, the expression is evaluated on IEEE-754 binary64 numbers
    ([Binary64]).

    Strings.  A JavaScript string is modelled by [string]; each [ascii] is
    one code unit below 256. *)

From Stdlib Require Import ZArith QArith Qcanon Qround Qabs.
From Stdlib Require Import List String Ascii Bool Lia Lqa DecimalString.
From Stdlib Require Import DecimalN DecimalPos.
From Stdlib Require Import SpecFloat.
Import ListNotations.

Local Open Scope string_scope.
Local Open Scope list_scope.
Local Open Scope Z_scope.

(* ================================================================== *)
(** ** JavaScript numbers *)

Module JsNum.

Inductive num : Type :=
| NaN
| PInf
| NInf
| Fin (q : Qc).

Definition ofQ (q : Q) : num := Fin (Q2Qc q).
Definition ofZ (z : Z) : num := ofQ (inject_Z z).
(** [dec n d] is the number written as the decimal fraction n/d. *)
Definition dec (n : Z) (d : positive) : num := ofQ (n # d).

Definition zero : num := ofZ 0.
Definition one : num := ofZ 1.
Definition hundred : num := ofZ 100.

Definition isNaN (x : num) : bool :=
  match x with NaN => true | _ => false end.

Definition isFinite (x : num) : bool :=
  match x with Fin _ => true | _ => false end.

(** Sign of a finite value. *)
Definition sgn (q : Qc) : comparison := (q ?= Q2Qc 0)%Qc.

Definition neg (x : num) : num :=
  match x with
  | NaN => NaN
  | PInf => NInf
  | NInf => PInf
  | Fin q => Fin (- q)%Qc
  end.

Definition add (x y : num) : num :=
  match x, y with
  | NaN, _ | _, NaN => NaN
  | PInf, NInf | NInf, PInf => NaN
  | PInf, _ | _, PInf => PInf
  | NInf, _ | _, NInf => NInf
  | Fin a, Fin b => Fin (a + b)%Qc
  end.

Definition sub (x y : num) : num := add x (neg y).

(** An infinity of sign [pos] scaled by a finite factor. *)
Definition scaleInf (pos : bool) (q : Qc) : num :=
  match sgn q with
  | Eq => NaN
  | Gt => if pos then PInf else NInf
  | Lt => if pos then NInf else PInf
  end.

Definition mul (x y : num) : num :=
  match x, y with
  | NaN, _ | _, NaN => NaN
  | PInf, PInf | NInf, NInf => PInf
  | PInf, NInf | NInf, PInf => NInf
  | PInf, Fin q | Fin q, PInf => scaleInf true q
  | NInf, Fin q | Fin q, NInf => scaleInf false q
  | Fin a, Fin b => Fin (a * b)%Qc
  end.

Definition div (x y : num) : num :=
  match x, y with
  | NaN, _ | _, NaN => NaN
  | PInf, PInf | PInf, NInf | NInf, PInf | NInf, NInf => NaN
  | PInf, Fin q => match sgn q with Lt => NInf | _ => PInf end
  | NInf, Fin q => match sgn q with Lt => PInf | _ => NInf end
  | Fin _, PInf | Fin _, NInf => zero
  | Fin a, Fin b =>
      match sgn b with
      | Eq => match sgn a with Eq => NaN | Gt => PInf | Lt => NInf end
      | _ => Fin (a / b)%Qc
      end
  end.

(** [x < y], false as soon as one side is NaN. *)
Definition lt (x y : num) : bool :=
  match x, y with
  | NaN, _ | _, NaN => false
  | _, NInf => false
  | NInf, _ => true
  | PInf, _ => false
  | _, PInf => true
  | Fin a, Fin b => match (a ?= b)%Qc with Lt => true | _ => false end
  end.

Definition gt (x y : num) : bool := lt y x.

(** [x <= y], false as soon as one side is NaN. *)
Definition le (x y : num) : bool :=
  match x, y with
  | NaN, _ | _, NaN => false
  | NInf, _ => true
  | _, PInf => true
  | _, NInf => false
  | PInf, _ => false
  | Fin a, Fin b => match (a ?= b)%Qc with Gt => false | _ => true end
  end.

Definition ge (x y : num) : bool := le y x.

(** [x === y] on numbers. *)
Definition strictEq (x y : num) : bool :=
  match x, y with
  | PInf, PInf | NInf, NInf => true
  | Fin a, Fin b => match (a ?= b)%Qc with Eq => true | _ => false end
  | _, _ => false
  end.

(** ToBoolean on a number: false for 0 and NaN. *)
Definition truthy (x : num) : bool :=
  match x with
  | NaN => false
  | Fin q => match sgn q with Eq => false | _ => true end
  | _ => true
  end.

(** The threshold 10^21 from which [toFixed] prints the number as
    [ToString] does. *)
Definition toFixedLimit : Q := inject_Z (10 ^ 21).

(** [parseFloat(x.toFixed(2))].  For a finite [x] below the limit [toFixed]
    picks the integer [n] with [n / 100] nearest to [|x|], the larger one on
    a tie, and prints the sign of [x] in front; NaN and the infinities print
    as their names, which [parseFloat] reads back. *)
Definition roundHalfUp2 (a : Q) : Q := (Qfloor (a * 100 + (1 # 2)) # 100)%Q.

Definition toFixed2 (x : num) : num :=
  match x with
  | Fin q =>
      if Qle_bool toFixedLimit (Qabs q) then Fin q
      else
        match sgn q with
        | Lt => ofQ (- roundHalfUp2 (Qabs q))
        | _ => ofQ (roundHalfUp2 (Qabs q))
        end
  | other => other
  end.

End JsNum.

Import JsNum.

(* ================================================================== *)
(** ** JavaScript strings: trim, split, indexOf, parseFloat *)

Module JsStr.

Local Open Scope string_scope.
Local Open Scope Z_scope.

Definition code (c : ascii) : Z := Z.of_N (N_of_ascii c).

(** WhiteSpace and LineTerminator code units below 256. *)
Definition isWhiteSpace (c : ascii) : bool :=
  let n := code c in
  ((9 <=? n) && (n <=? 13)) || (n =? 32) || (n =? 160).

Fixpoint trimStart (s : string) : string :=
  match s with
  | String c rest => if isWhiteSpace c then trimStart rest else s
  | EmptyString => EmptyString
  end.

(** Drops the trailing white space: a character is kept when it is not
    white space or when something is kept after it. *)
Fixpoint trimEnd (s : string) : string :=
  match s with
  | EmptyString => EmptyString
  | String c rest =>
      match trimEnd rest with
      | EmptyString => if isWhiteSpace c then EmptyString else String c EmptyString
      | kept => String c kept
      end
  end.

Definition trim (s : string) : string := trimEnd (trimStart s).

Definition LF : ascii := ascii_of_nat 10.
Definition CR : ascii := ascii_of_nat 13.

Definition consHead (c : ascii) (parts : list string) : list string :=
  match parts with
  | p :: ps => String c p :: ps
  | [] => [String c EmptyString]
  end.

(** [s.split(/\r\n|\n/)]. *)
Fixpoint splitLines (s : string) : list string :=
  match s with
  | EmptyString => [EmptyString]
  | String c rest =>
      if Ascii.eqb c LF then EmptyString :: splitLines rest
      else
        match rest with
        | String c' rest' =>
            if Ascii.eqb c CR && Ascii.eqb c' LF
            then EmptyString :: splitLines rest'
            else consHead c (splitLines rest)
        | EmptyString => consHead c (splitLines rest)
        end
  end.

(** [s.split(',')]. *)
Fixpoint splitComma (s : string) : list string :=
  match s with
  | EmptyString => [EmptyString]
  | String c rest =>
      if Ascii.eqb c "," then EmptyString :: splitComma rest
      else consHead c (splitComma rest)
  end.

(** [l.indexOf(x)] counted from [i]: the first position holding [x], or -1. *)
Fixpoint indexOfFrom (i : Z) (x : string) (l : list string) : Z :=
  match l with
  | [] => -1
  | y :: rest => if String.eqb y x then i else indexOfFrom (i + 1) x rest
  end.

Definition indexOf (l : list string) (x : string) : Z := indexOfFrom 0 x l.

(** [l.includes(-1)]. *)
Definition includesMinusOne (l : list Z) : bool := existsb (Z.eqb (-1)) l.

(** [l[i]]: [None] stands for [undefined]. *)
Definition at_ {A : Type} (l : list A) (i : Z) : option A :=
  if i <? 0 then None else nth_error l (Z.to_nat i).

(** [parts.join(', ')]. *)
Fixpoint joinCommaSpace (parts : list string) : string :=
  match parts with
  | [] => ""
  | [p] => p
  | p :: rest => (p ++ ", " ++ joinCommaSpace rest)%string
  end.

(** [s.includes(t)]. *)
Definition includes (s t : string) : bool :=
  match String.index 0 t s with Some _ => true | None => false end.

(** *** parseFloat *)

Definition isDigit (c : ascii) : bool :=
  let n := code c in (48 <=? n) && (n <=? 57).

Definition digitVal (c : ascii) : Z := code c - 48.

(** Reads the longest run of decimal digits: its value continued from
    [acc], the number of digits read, and the rest of the string. *)
Fixpoint readDigits (acc : Z) (count : nat) (s : string) : Z * nat * string :=
  match s with
  | String c rest =>
      if isDigit c then readDigits (10 * acc + digitVal c) (S count) rest
      else (acc, count, s)
  | EmptyString => (acc, count, s)
  end.

(** ExponentPart, when the string starts with one; 0 otherwise. *)
Definition readExponent (s : string) : Z :=
  match s with
  | String c rest =>
      if Ascii.eqb c "e" || Ascii.eqb c "E" then
        match rest with
        | String sg rest' =>
            if Ascii.eqb sg "-" then
              let '(v, n, _) := readDigits 0 0 rest' in
              match n with O => 0 | _ => - v end
            else if Ascii.eqb sg "+" then
              let '(v, n, _) := readDigits 0 0 rest' in
              match n with O => 0 | _ => v end
            else
              let '(v, n, _) := readDigits 0 0 rest in
              match n with O => 0 | _ => v end
        | EmptyString => 0
        end
      else 0
  | EmptyString => 0
  end.

(** m * 10^e as a rational. *)
Definition scale10 (m : Z) (e : Z) : Q :=
  if 0 <=? e then inject_Z (m * 10 ^ e)
  else (m # Z.to_pos (10 ^ (- e)))%Q.

(** The longest prefix that is a StrUnsignedDecimalLiteral, as a number. *)
Definition parseUnsigned (s : string) : num :=
  if String.prefix "Infinity" s then PInf
  else
    let '(ip, ni, rest) := readDigits 0 0 s in
    match ni with
    | S _ =>
        match rest with
        | String c rest' =>
            if Ascii.eqb c "." then
              let '(m, nf, rest'') := readDigits ip 0 rest' in
              ofQ (scale10 m (readExponent rest'' - Z.of_nat nf))
            else ofQ (scale10 ip (readExponent rest))
        | EmptyString => ofQ (scale10 ip 0)
        end
    | O =>
        match s with
        | String c rest' =>
            if Ascii.eqb c "." then
              let '(m, nf, rest'') := readDigits 0 0 rest' in
              match nf with
              | O => NaN
              | S _ => ofQ (scale10 m (readExponent rest'' - Z.of_nat nf))
              end
            else NaN
        | EmptyString => NaN
        end
    end.

(** [parseFloat(v)]; [None] is [undefined], whose string form holds no
    decimal literal. *)
Definition parseFloat (v : option string) : num :=
  match v with
  | None => NaN
  | Some s =>
      match trimStart s with
      | String c rest =>
          if Ascii.eqb c "-" then neg (parseUnsigned rest)
          else if Ascii.eqb c "+" then parseUnsigned rest
          else parseUnsigned (String c rest)
      | EmptyString => NaN
      end
  end.

End JsStr.

Import JsStr.

(* ================================================================== *)
(** ** types.ts *)

Inductive AssetType : Type := BTC | GOLD.
Inductive TimeRange : Type := W | M | Y.
Inductive Currency : Type := THB | USD.

(** A [Date] object: its time value in milliseconds, or the Invalid Date
    (time value NaN). *)
Inductive JsDate : Type :=
| ValidDate (ms : Z)
| InvalidDate.

Module RawTransaction.
Record t : Type := mk {
  date : JsDate;
  invested : num;
  assetPrice : num;
  assetPurchased : num
}.
End RawTransaction.

Module ChartDataPoint.
Record t : Type := mk {
  date : string;
  portValue : num;
  assetValue : num;
  cumulativeAmount : option num
}.
End ChartDataPoint.

Module SummaryData.
Record t : Type := mk {
  profitPercentage : num;
  totalCapital : num;
  entryPrice : num;
  startDate : JsDate;
  portValue : num;
  lastUpdated : JsDate;
  totalAmount : num
}.
End SummaryData.

Module DcaBundle.
Record t : Type := mk {
  chartData : list ChartDataPoint.t;
  summaryData : option SummaryData.t;
  rawData : list RawTransaction.t;
  error : option string
}.
End DcaBundle.

Module PriceInfo.
Record t : Type := mk {
  price : num;
  change24h : num;
  change24hPercentage : num;
  isMock : option bool
}.
End PriceInfo.

Module CurrencyPrices.
Record t : Type := mk {
  thb : PriceInfo.t;
  usd : PriceInfo.t
}.
End CurrencyPrices.

(** [{ [key in AssetType]?: CurrencyPrices }]. *)
Module LiveAssetPriceData.
Record t : Type := mk {
  btc : option CurrencyPrices.t;
  gold : option CurrencyPrices.t
}.
Definition get (p : t) (a : AssetType) : option CurrencyPrices.t :=
  match a with BTC => btc p | GOLD => gold p end.
End LiveAssetPriceData.

(** [Record<AssetType, DcaBundle>]. *)
Module AllDca.
Record t : Type := mk {
  btc : DcaBundle.t;
  gold : DcaBundle.t
}.
Definition get (d : t) (a : AssetType) : DcaBundle.t :=
  match a with BTC => btc d | GOLD => gold d end.
End AllDca.

(** A promise once settled: fulfilled with a value, or rejected with an
    [Error] carrying a message. *)
Inductive result (A : Type) : Type :=
| Ok (a : A)
| Throw (msg : string).
Arguments Ok {A} a.
Arguments Throw {A} msg.

Definition bind {A B : Type} (r : result A) (k : A -> result B) : result B :=
  match r with
  | Ok a => k a
  | Throw m => Throw m
  end.

Notation "x <- r ;; k" := (bind r (fun x => k))
  (at level 61, r at next level, right associativity).
Notation "'check' b 'elseThrow' m ;; k" := (if b then k else Throw m)
  (at level 61, b at next level, m at next level, right associativity).

(** ToBoolean on [string | null]: only a non-empty string is truthy. *)
Definition strTruthy (o : option string) : bool :=
  match o with
  | Some s => negb (String.eqb s EmptyString)
  | None => false
  end.

(** ToBoolean on [number | null | undefined]. *)
Definition numTruthy (o : option num) : bool :=
  match o with
  | Some x => truthy x
  | None => false
  end.

(** ToBoolean on an object reference: every object is truthy, the Invalid
    Date included. *)
Definition dateTruthy (d : JsDate) : bool := true.

Definition assetName (a : AssetType) : string :=
  match a with BTC => "BTC" | GOLD => "GOLD" end.

Definition showZ (z : Z) : string :=
  NilZero.string_of_int (Z.to_int z).

(* ================================================================== *)
(** ** services/dataService.ts *)

Module Columns.
Record t : Type := mk {
  date : string;
  invested : string;
  price : string;
  purchased : string
}.
(** [Object.values(c)]. *)
Definition values (c : t) : list string :=
  [date c; invested c; price c; purchased c].
End Columns.

Definition GOOGLE_SHEET_CSV_URL : string :=
  "https://docs.google.com/spreadsheets/d/e/2PACX-1vTky6EXF-T1UqfBgBdLM_shv8VdaQzGifDBwlYSRBDk_J4_wxDeU_9FSdhjj2I-EaoN2jREHxAnyxa3/pub?gid=0&single=true&output=csv".

Definition COLUMN_MAP (a : AssetType) : Columns.t :=
  match a with
  | BTC => {| Columns.date := "Date";
              Columns.invested := "Invested (THB)";
              Columns.price := "BTC Price (THB)";
              Columns.purchased := "BTC Purchased" |}
  | GOLD => {| Columns.date := "Gold Date";
               Columns.invested := "Invested Gold (THB)";
               Columns.price := "Gold Price (THB)";
               Columns.purchased := "Gold Purchased (g)" |}
  end.

Module ParseResult.
Record t : Type := mk {
  data : list RawTransaction.t;
  error : option string
}.
End ParseResult.

Definition emptyCsvError : string :=
  "CSV file is empty or has only a header.".

Definition missingColumnsError (asset : AssetType) : string :=
  ("Columns for " ++ assetName asset ++
   " not found in the Google Sheet. Please ensure the following headers are present and correct in the published CSV: "
   ++ joinCommaSpace (Columns.values (COLUMN_MAP asset)) ++
   ". Empty columns between BTC and Gold data may cause this issue.")%string.

Definition noRowsError (asset : AssetType) : string :=
  ("No valid transaction rows found for " ++ assetName asset ++
   ". Please check the data in your Google Sheet.")%string.

(** The filter of [parseCsv]:
    [d.date && !isNaN(d.invested) && !isNaN(d.assetPrice) &&
     !isNaN(d.assetPurchased) && d.invested > 0]. *)
Definition keepRow (d : RawTransaction.t) : bool :=
  dateTruthy (RawTransaction.date d)
  && negb (isNaN (RawTransaction.invested d))
  && negb (isNaN (RawTransaction.assetPrice d))
  && negb (isNaN (RawTransaction.assetPurchased d))
  && gt (RawTransaction.invested d) zero.

(** The running totals of [processData]: [cumulativeInvested] and
    [cumulativeAmount]. *)
Module Totals.
Record t : Type := mk {
  cumulativeInvested : num;
  cumulativeAmount : num
}.
Definition init : t := mk zero zero.
End Totals.

Module LivePrices.
Record t : Type := mk {
  prices : LiveAssetPriceData.t;
  thbUsdRate : num
}.
End LivePrices.

(** One element of the CoinGecko markets array. *)
Module CoinMarket.
Record t : Type := mk {
  current_price : num;
  price_change_24h : num;
  price_change_percentage_24h : num
}.
End CoinMarket.

(** One element of the goldprice.org [items] array. *)
Module GoldItem.
Record t : Type := mk {
  xauPrice : num;
  chgXau : num;
  pcXau : num
}.
End GoldItem.

(** An HTTP response.  [first] is what [await r.json()] gives, read at
    [?.[0]] (resp. [?.items?.[0]]): [Ok None] when that is undefined,
    [Throw] when the body is not JSON. *)
Module Response.
Record t (A : Type) : Type := mk {
  ok : bool;
  status : Z;
  first : result (option A)
}.
Arguments mk {A}.
Arguments ok {A}.
Arguments status {A}.
Arguments first {A}.
End Response.

Module SheetResponse.
Record t : Type := mk {
  ok : bool;
  status : Z;
  text : string
}.
End SheetResponse.

Definition TROY_OUNCE_TO_GRAMS : num := dec 311035 10000.
Definition GOLD_CONVERSION_GRAMS : num := dec 1471 100.

Definition btcPriceInfo (c : CoinMarket.t) : PriceInfo.t :=
  {| PriceInfo.price := CoinMarket.current_price c;
     PriceInfo.change24h := CoinMarket.price_change_24h c;
     PriceInfo.change24hPercentage := CoinMarket.price_change_percentage_24h c;
     PriceInfo.isMock := None |}.

Definition goldPriceInfo (g : GoldItem.t) : PriceInfo.t :=
  {| PriceInfo.price :=
       mul (div (GoldItem.xauPrice g) TROY_OUNCE_TO_GRAMS) GOLD_CONVERSION_GRAMS;
     PriceInfo.change24h :=
       mul (div (GoldItem.chgXau g) TROY_OUNCE_TO_GRAMS) GOLD_CONVERSION_GRAMS;
     PriceInfo.change24hPercentage := GoldItem.pcXau g;
     PriceInfo.isMock := None |}.

(** [if (!x) throw new Error(m)] on an optional object. *)
Definition orThrow {A : Type} (o : option A) (m : string) : result A :=
  match o with
  | Some a => Ok a
  | None => Throw m
  end.

(** The [try] block of [fetchLivePrices], given the four settled fetches. *)
Definition fetchLivePricesBody
    (btcUsdFetch btcThbFetch : result (Response.t CoinMarket.t))
    (goldThbFetch goldUsdFetch : result (Response.t GoldItem.t))
    : result LivePrices.t :=
  btcUsdResponse <- btcUsdFetch ;;
  btcThbResponse <- btcThbFetch ;;
  goldThbResponse <- goldThbFetch ;;
  goldUsdResponse <- goldUsdFetch ;;
  check (Response.ok btcUsdResponse)
    elseThrow ("CoinGecko API for BTC/USD failed: " ++ showZ (Response.status btcUsdResponse))%string ;;
  check (Response.ok btcThbResponse)
    elseThrow ("CoinGecko API for BTC/THB failed: " ++ showZ (Response.status btcThbResponse))%string ;;
  check (Response.ok goldThbResponse)
    elseThrow ("Goldprice.org API for THB failed: " ++ showZ (Response.status goldThbResponse))%string ;;
  check (Response.ok goldUsdResponse)
    elseThrow ("Goldprice.org API for USD failed: " ++ showZ (Response.status goldUsdResponse))%string ;;
  btcUsdData <- Response.first btcUsdResponse ;;
  btcThbData <- Response.first btcThbResponse ;;
  goldThbData <- Response.first goldThbResponse ;;
  goldUsdData <- Response.first goldUsdResponse ;;
  btcUsd <- orThrow btcUsdData "Invalid data from CoinGecko API" ;;
  btcThb <- orThrow btcThbData "Invalid data from CoinGecko API" ;;
  let btcPrices :=
    {| CurrencyPrices.usd := btcPriceInfo btcUsd;
       CurrencyPrices.thb := btcPriceInfo btcThb |} in
  let usdPrice := PriceInfo.price (CurrencyPrices.usd btcPrices) in
  check (negb (negb (truthy usdPrice) || strictEq usdPrice zero))
    elseThrow "BTC price in USD is zero or invalid." ;;
  goldThbRaw <- orThrow goldThbData "Invalid data from Goldprice.org API" ;;
  goldUsdRaw <- orThrow goldUsdData "Invalid data from Goldprice.org API" ;;
  let goldPrices :=
    {| CurrencyPrices.thb := goldPriceInfo goldThbRaw;
       CurrencyPrices.usd := goldPriceInfo goldUsdRaw |} in
  let thbUsdRate :=
    div (PriceInfo.price (CurrencyPrices.thb btcPrices))
        (PriceInfo.price (CurrencyPrices.usd btcPrices)) in
  Ok {| LivePrices.prices :=
          {| LiveAssetPriceData.btc := Some btcPrices;
             LiveAssetPriceData.gold := Some goldPrices |};
        LivePrices.thbUsdRate := thbUsdRate |}.

(** [fetchLivePrices]: whatever the [try] block throws is replaced. *)
Definition fetchLivePrices
    (btcUsdFetch btcThbFetch : result (Response.t CoinMarket.t))
    (goldThbFetch goldUsdFetch : result (Response.t GoldItem.t))
    : result LivePrices.t :=
  match fetchLivePricesBody btcUsdFetch btcThbFetch goldThbFetch goldUsdFetch with
  | Ok r => Ok r
  | Throw _ => Throw "Could not fetch live prices."
  end.

Section DataService.

(** The host's date functions: [new Date(s)] on a string, and
    [d.toLocaleDateString('en-US', { month: 'short', day: 'numeric' })]. *)
Variable dateParse : string -> JsDate.
Variable dateLabel : JsDate -> string.

(** [new Date(v)] for [v : string | undefined]. *)
Definition newDate (v : option string) : JsDate :=
  match v with
  | Some s => dateParse s
  | None => InvalidDate
  end.

Definition parseRow (dateIndex investedIndex priceIndex purchasedIndex : Z)
    (line : string) : RawTransaction.t :=
  let values := map trim (splitComma line) in
  {| RawTransaction.date := newDate (at_ values dateIndex);
     RawTransaction.invested := parseFloat (at_ values investedIndex);
     RawTransaction.assetPrice := parseFloat (at_ values priceIndex);
     RawTransaction.assetPurchased := parseFloat (at_ values purchasedIndex) |}.

Definition parseCsv (csvText : string) (asset : AssetType) : ParseResult.t :=
  let lines := splitLines (trim csvText) in
  if (List.length lines <? 2)%nat then
    {| ParseResult.data := []; ParseResult.error := Some emptyCsvError |}
  else
    let header := map trim (splitComma (hd EmptyString lines)) in
    let dataRows := tl lines in
    let assetColumns := COLUMN_MAP asset in
    let dateIndex := indexOf header (Columns.date assetColumns) in
    let investedIndex := indexOf header (Columns.invested assetColumns) in
    let priceIndex := indexOf header (Columns.price assetColumns) in
    let purchasedIndex := indexOf header (Columns.purchased assetColumns) in
    if includesMinusOne [dateIndex; investedIndex; priceIndex; purchasedIndex] then
      {| ParseResult.data := [];
         ParseResult.error := Some (missingColumnsError asset) |}
    else
      {| ParseResult.data :=
           filter keepRow
             (map (parseRow dateIndex investedIndex priceIndex purchasedIndex)
                  dataRows);
         ParseResult.error := None |}.

(** The callback of [data.map] in [processData]: it updates the two running
    totals and returns the chart point. *)
Definition chartStep (acc : Totals.t) (point : RawTransaction.t)
    : Totals.t * ChartDataPoint.t :=
  let cumulativeInvested :=
    add (Totals.cumulativeInvested acc) (RawTransaction.invested point) in
  let cumulativeAmount :=
    add (Totals.cumulativeAmount acc) (RawTransaction.assetPurchased point) in
  let portValue := mul cumulativeAmount (RawTransaction.assetPrice point) in
  ({| Totals.cumulativeInvested := cumulativeInvested;
      Totals.cumulativeAmount := cumulativeAmount |},
   {| ChartDataPoint.date := dateLabel (RawTransaction.date point);
      ChartDataPoint.portValue := toFixed2 portValue;
      ChartDataPoint.assetValue := toFixed2 cumulativeInvested;
      ChartDataPoint.cumulativeAmount := Some cumulativeAmount |}).

(** [data.map(callback)] with the totals threaded from left to right. *)
Fixpoint chartScan (acc : Totals.t) (data : list RawTransaction.t)
    : Totals.t * list ChartDataPoint.t :=
  match data with
  | [] => (acc, [])
  | point :: rest =>
      let '(acc1, p) := chartStep acc point in
      let '(acc2, ps) := chartScan acc1 rest in
      (acc2, p :: ps)
  end.

Definition processData (data : list RawTransaction.t) : DcaBundle.t :=
  match data with
  | [] =>
      {| DcaBundle.chartData := []; DcaBundle.summaryData := None;
         DcaBundle.rawData := []; DcaBundle.error := None |}
  | first :: _ =>
      let '(totals, chartData) := chartScan Totals.init data in
      let cumulativeInvested := Totals.cumulativeInvested totals in
      let cumulativeAmount := Totals.cumulativeAmount totals in
      let finalDataPoint := last data first in
      let finalPortValue :=
        mul cumulativeAmount (RawTransaction.assetPrice finalDataPoint) in
      let profit := sub finalPortValue cumulativeInvested in
      let profitPercentage := mul (div profit cumulativeInvested) hundred in
      let entryPrice := div cumulativeInvested cumulativeAmount in
      let summaryData :=
        {| SummaryData.profitPercentage := profitPercentage;
           SummaryData.totalCapital := cumulativeInvested;
           SummaryData.entryPrice := entryPrice;
           SummaryData.startDate := RawTransaction.date first;
           SummaryData.portValue := finalPortValue;
           SummaryData.lastUpdated := RawTransaction.date finalDataPoint;
           SummaryData.totalAmount := cumulativeAmount |} in
      {| DcaBundle.chartData := chartData;
         DcaBundle.summaryData := Some summaryData;
         DcaBundle.rawData := data;
         DcaBundle.error := None |}
  end.

(** The body of the loop of [fetchAllDcaData] for one asset. *)
Definition bundleFor (csvText : string) (asset : AssetType) : DcaBundle.t :=
  let r := parseCsv csvText asset in
  if strTruthy (ParseResult.error r) then
    {| DcaBundle.rawData := []; DcaBundle.chartData := [];
       DcaBundle.summaryData := None;
       DcaBundle.error := ParseResult.error r |}
  else if (List.length (ParseResult.data r) =? 0)%nat then
    {| DcaBundle.rawData := []; DcaBundle.chartData := [];
       DcaBundle.summaryData := None;
       DcaBundle.error := Some (noRowsError asset) |}
  else processData (ParseResult.data r).

(** [fetchAllDcaData], given the settled fetch of the sheet. *)
Definition fetchAllDcaData (sheetFetch : result SheetResponse.t)
    : result AllDca.t :=
  if includes GOOGLE_SHEET_CSV_URL "YOUR_SHEET_ID_HERE" then
    Throw "Please update GOOGLE_SHEET_CSV_URL in services/dataService.ts"
  else
    response <- sheetFetch ;;
    check (SheetResponse.ok response)
      elseThrow ("Failed to fetch from Google Sheets: " ++ showZ (SheetResponse.status response))%string ;;
    let csvText := SheetResponse.text response in
    Ok {| AllDca.btc := bundleFor csvText BTC;
          AllDca.gold := bundleFor csvText GOLD |}.

End DataService.

(* ================================================================== *)
(** ** components/TransactionHistory.tsx *)

Module TransactionHistory.

(** The numbers one table row hands to the formatters. *)
Record Row : Type := mkRow {
  date : JsDate;
  invested : num;
  assetPrice : num;
  assetPurchased : num
}.

Definition row (conversionRate : num) (tx : RawTransaction.t) : Row :=
  {| date := RawTransaction.date tx;
     invested := mul (RawTransaction.invested tx) conversionRate;
     assetPrice := mul (RawTransaction.assetPrice tx) conversionRate;
     assetPurchased := RawTransaction.assetPurchased tx |}.

(** [None] is the component rendering nothing. *)
Definition render (data : list RawTransaction.t) (conversionRate : num)
    : option (list Row) :=
  match data with
  | [] => None
  | _ => Some (map (row conversionRate) data)
  end.

End TransactionHistory.

(* ================================================================== *)
(** ** App.tsx *)

Module App.

Record State : Type := mkState {
  loading : bool;
  error : option string;
  allDcaData : option AllDca.t;
  timeRange : TimeRange;
  currency : Currency;
  selectedAsset : AssetType;
  livePrices : option LiveAssetPriceData.t;
  thbUsdRate : option num;
  livePriceError : option string;
  livePriceLastUpdated : option JsDate;
  isRefreshing : bool
}.

(** The [useState] initial values. *)
Definition initial : State :=
  {| loading := true; error := None; allDcaData := None; timeRange := Y;
     currency := THB; selectedAsset := BTC; livePrices := None;
     thbUsdRate := None; livePriceError := None;
     livePriceLastUpdated := None; isRefreshing := false |}.

(** [(currency === 'USD' && thbUsdRate) ? (1 / thbUsdRate) : 1]. *)
Definition conversionRate (currency : Currency) (thbUsdRate : option num) : num :=
  match currency, thbUsdRate with
  | USD, Some r => if truthy r then div one r else one
  | _, _ => one
  end.

(** [allDcaData?.[selectedAsset] ?? null]. *)
Definition currentAssetData (allDcaData : option AllDca.t)
    (selectedAsset : AssetType) : option DcaBundle.t :=
  match allDcaData with
  | Some d => Some (AllDca.get d selectedAsset)
  | None => None
  end.

(** [livePrices?.[selectedAsset]?.[currency.toLowerCase()] ?? null]. *)
Definition currentLivePrice (livePrices : option LiveAssetPriceData.t)
    (selectedAsset : AssetType) (currency : Currency) : option PriceInfo.t :=
  match livePrices with
  | Some p =>
      match LiveAssetPriceData.get p selectedAsset with
      | Some cp =>
          Some (match currency with
                | THB => CurrencyPrices.thb cp
                | USD => CurrencyPrices.usd cp
                end)
      | None => None
      end
  | None => None
  end.

Definition GOLD_CONVERSION_GRAMS : num := dec 1471 100.

Definition livePricePerGram (currentLivePrice : option PriceInfo.t)
    (selectedAsset : AssetType) : option PriceInfo.t :=
  match currentLivePrice with
  | None => None
  | Some lp =>
      match selectedAsset with
      | GOLD =>
          Some {| PriceInfo.price := div (PriceInfo.price lp) GOLD_CONVERSION_GRAMS;
                  PriceInfo.change24h := PriceInfo.change24h lp;
                  PriceInfo.change24hPercentage := PriceInfo.change24hPercentage lp;
                  PriceInfo.isMock := PriceInfo.isMock lp |}
      | BTC => Some lp
      end
  end.

(** [l.slice(-n)] for [n > 0]: the last [n] elements, all of them when there
    are fewer. *)
Definition sliceLast {A : Type} (n : nat) (l : list A) : list A :=
  skipn (List.length l - n)%nat l.

(** The callback of [data.map] in [filteredChartData]. *)
Definition displayPoint (livePricePerGram : option PriceInfo.t)
    (conversionRate : num) (d : ChartDataPoint.t) : ChartDataPoint.t :=
  {| ChartDataPoint.date := ChartDataPoint.date d;
     ChartDataPoint.portValue :=
       match livePricePerGram, ChartDataPoint.cumulativeAmount d with
       | Some lp, Some amount =>
           if truthy amount then mul amount (PriceInfo.price lp)
           else mul (ChartDataPoint.portValue d) conversionRate
       | _, _ => mul (ChartDataPoint.portValue d) conversionRate
       end;
     ChartDataPoint.assetValue := mul (ChartDataPoint.assetValue d) conversionRate;
     ChartDataPoint.cumulativeAmount := ChartDataPoint.cumulativeAmount d |}.

Definition filteredChartData (currentAssetData : option DcaBundle.t)
    (timeRange : TimeRange) (conversionRate : num)
    (livePricePerGram : option PriceInfo.t) : list ChartDataPoint.t :=
  match currentAssetData with
  | None => []
  | Some bundle =>
      if strTruthy (DcaBundle.error bundle) then []
      else
        let data :=
          match timeRange with
          | W => sliceLast 7 (DcaBundle.chartData bundle)
          | M => sliceLast 30 (DcaBundle.chartData bundle)
          | Y => DcaBundle.chartData bundle
          end in
        map (displayPoint livePricePerGram conversionRate) data
  end.

Definition liveSummary (currentAssetData : option DcaBundle.t)
    (livePricePerGram : option PriceInfo.t) (conversionRate : num)
    : option SummaryData.t :=
  match currentAssetData with
  | None => None
  | Some bundle =>
      match DcaBundle.summaryData bundle with
      | None => None
      | Some summaryData =>
          let convertedTotalCapital :=
            mul (SummaryData.totalCapital summaryData) conversionRate in
          let convertedEntryPrice :=
            mul (SummaryData.entryPrice summaryData) conversionRate in
          let '(livePortValue, liveProfitPercentage) :=
            match livePricePerGram with
            | Some lp =>
                let livePortValue :=
                  mul (SummaryData.totalAmount summaryData) (PriceInfo.price lp) in
                let profit := sub livePortValue convertedTotalCapital in
                (livePortValue, mul (div profit convertedTotalCapital) hundred)
            | None =>
                (mul (SummaryData.portValue summaryData) conversionRate,
                 SummaryData.profitPercentage summaryData)
            end in
          Some {| SummaryData.profitPercentage := liveProfitPercentage;
                  SummaryData.totalCapital := convertedTotalCapital;
                  SummaryData.entryPrice := convertedEntryPrice;
                  SummaryData.startDate := SummaryData.startDate summaryData;
                  SummaryData.portValue := livePortValue;
                  SummaryData.lastUpdated := SummaryData.lastUpdated summaryData;
                  SummaryData.totalAmount := SummaryData.totalAmount summaryData |}
      end
  end.

(** The rows handed to [TransactionHistory], when it is mounted. *)
Definition transactionRows (currentAssetData : option DcaBundle.t)
    (conversionRate : num) : option (list TransactionHistory.Row) :=
  match currentAssetData with
  | Some bundle =>
      if negb (strTruthy (DcaBundle.error bundle))
         && (0 <? List.length (DcaBundle.rawData bundle))%nat
      then TransactionHistory.render (DcaBundle.rawData bundle) conversionRate
      else None
  | None => None
  end.

(** The memoised values, read off a state. *)
Definition rateOf (s : State) : num := conversionRate (currency s) (thbUsdRate s).
Definition assetDataOf (s : State) : option DcaBundle.t :=
  currentAssetData (allDcaData s) (selectedAsset s).
Definition livePriceOf (s : State) : option PriceInfo.t :=
  currentLivePrice (livePrices s) (selectedAsset s) (currency s).
Definition perGramOf (s : State) : option PriceInfo.t :=
  livePricePerGram (livePriceOf s) (selectedAsset s).
Definition chartOf (s : State) : list ChartDataPoint.t :=
  filteredChartData (assetDataOf s) (timeRange s) (rateOf s) (perGramOf s).
Definition summaryOf (s : State) : option SummaryData.t :=
  liveSummary (assetDataOf s) (perGramOf s) (rateOf s).
Definition rowsOf (s : State) : option (list TransactionHistory.Row) :=
  transactionRows (assetDataOf s) (rateOf s).

(** [Promise.all([a, b])]: fulfilled with both values, rejected with the
    reason of the promise that rejects first. *)
Definition promiseAll {A B : Type} (leftRejectsFirst : bool)
    (a : result A) (b : result B) : result (A * B) :=
  match a, b with
  | Ok x, Ok y => Ok (x, y)
  | Throw m, Ok _ => Throw m
  | Ok _, Throw m => Throw m
  | Throw ma, Throw mb => Throw (if leftRejectsFirst then ma else mb)
  end.

(** The state updates of [loadInitialData] once both fetches have settled;
    [closureError] is the [error] the running closure captured and [now] is
    [new Date()]. *)
Definition loadInitialData (closureError : option string) (now : JsDate)
    (settled : result (AllDca.t * LivePrices.t)) (s : State) : State :=
  match settled with
  | Ok (dcaData, priceData) =>
      {| loading := loading s;
         error := if strTruthy closureError then None else error s;
         allDcaData := Some dcaData;
         timeRange := timeRange s; currency := currency s;
         selectedAsset := selectedAsset s;
         livePrices := Some (LivePrices.prices priceData);
         thbUsdRate := Some (LivePrices.thbUsdRate priceData);
         livePriceError := livePriceError s;
         livePriceLastUpdated := Some now;
         isRefreshing := isRefreshing s |}
  | Throw errorMessage =>
      {| loading := loading s;
         error := Some errorMessage;
         allDcaData := allDcaData s;
         timeRange := timeRange s; currency := currency s;
         selectedAsset := selectedAsset s;
         livePrices := livePrices s;
         thbUsdRate := thbUsdRate s;
         livePriceError := Some errorMessage;
         livePriceLastUpdated := livePriceLastUpdated s;
         isRefreshing := isRefreshing s |}
  end.

Definition setLoading (b : bool) (s : State) : State :=
  {| loading := b; error := error s; allDcaData := allDcaData s;
     timeRange := timeRange s; currency := currency s;
     selectedAsset := selectedAsset s; livePrices := livePrices s;
     thbUsdRate := thbUsdRate s; livePriceError := livePriceError s;
     livePriceLastUpdated := livePriceLastUpdated s;
     isRefreshing := isRefreshing s |}.

Definition setIsRefreshing (b : bool) (s : State) : State :=
  {| loading := loading s; error := error s; allDcaData := allDcaData s;
     timeRange := timeRange s; currency := currency s;
     selectedAsset := selectedAsset s; livePrices := livePrices s;
     thbUsdRate := thbUsdRate s; livePriceError := livePriceError s;
     livePriceLastUpdated := livePriceLastUpdated s;
     isRefreshing := b |}.

(** The effect run on mount: the closure was created by the first render,
    where [error] is null. *)
Definition initialLoad (now : JsDate)
    (settled : result (AllDca.t * LivePrices.t)) (s : State) : State :=
  setLoading false (loadInitialData None now settled (setLoading true s)).

Definition handleRefresh (now : JsDate)
    (settled : result (AllDca.t * LivePrices.t)) (s : State) : State :=
  if isRefreshing s then s
  else setIsRefreshing false
         (loadInitialData (error s) now settled (setIsRefreshing true s)).

(** One firing of the 60-second interval, once its fetch has settled. *)
Definition tick (now : JsDate) (settled : result LivePrices.t) (s : State)
    : State :=
  match settled with
  | Ok data =>
      {| loading := loading s; error := error s; allDcaData := allDcaData s;
         timeRange := timeRange s; currency := currency s;
         selectedAsset := selectedAsset s;
         livePrices := Some (LivePrices.prices data);
         thbUsdRate := Some (LivePrices.thbUsdRate data);
         livePriceError := livePriceError s;
         livePriceLastUpdated := Some now;
         isRefreshing := isRefreshing s |}
  | Throw message =>
      {| loading := loading s; error := error s; allDcaData := allDcaData s;
         timeRange := timeRange s; currency := currency s;
         selectedAsset := selectedAsset s;
         livePrices := livePrices s;
         thbUsdRate := thbUsdRate s;
         livePriceError := Some message;
         livePriceLastUpdated := livePriceLastUpdated s;
         isRefreshing := isRefreshing s |}
  end.

Definition setSelectedAsset (a : AssetType) (s : State) : State :=
  {| loading := loading s; error := error s; allDcaData := allDcaData s;
     timeRange := timeRange s; currency := currency s;
     selectedAsset := a; livePrices := livePrices s;
     thbUsdRate := thbUsdRate s; livePriceError := livePriceError s;
     livePriceLastUpdated := livePriceLastUpdated s;
     isRefreshing := isRefreshing s |}.

Definition setCurrency (c : Currency) (s : State) : State :=
  {| loading := loading s; error := error s; allDcaData := allDcaData s;
     timeRange := timeRange s; currency := c;
     selectedAsset := selectedAsset s; livePrices := livePrices s;
     thbUsdRate := thbUsdRate s; livePriceError := livePriceError s;
     livePriceLastUpdated := livePriceLastUpdated s;
     isRefreshing := isRefreshing s |}.

Definition setTimeRange (r : TimeRange) (s : State) : State :=
  {| loading := loading s; error := error s; allDcaData := allDcaData s;
     timeRange := r; currency := currency s;
     selectedAsset := selectedAsset s; livePrices := livePrices s;
     thbUsdRate := thbUsdRate s; livePriceError := livePriceError s;
     livePriceLastUpdated := livePriceLastUpdated s;
     isRefreshing := isRefreshing s |}.

(** What can happen to the component; each asynchronous handler is taken at
    the moment its fetches have settled. *)
Inductive Event : Type :=
| InitialLoad (now : JsDate) (settled : result (AllDca.t * LivePrices.t))
| Refresh (now : JsDate) (settled : result (AllDca.t * LivePrices.t))
| Tick (now : JsDate) (settled : result LivePrices.t)
| SelectAsset (a : AssetType)
| SelectCurrency (c : Currency)
| SelectTimeRange (r : TimeRange).

Definition step (s : State) (e : Event) : State :=
  match e with
  | InitialLoad now settled => initialLoad now settled s
  | Refresh now settled => handleRefresh now settled s
  | Tick now settled => tick now settled s
  | SelectAsset a => setSelectedAsset a s
  | SelectCurrency c => setCurrency c s
  | SelectTimeRange r => setTimeRange r s
  end.

Definition run (events : list Event) : State := fold_left step events initial.

Inductive reachable : State -> Prop :=
| reach_initial : reachable initial
| reach_step : forall s e, reachable s -> reachable (step s e).

End App.

(* ================================================================== *)
(** ** The conversion rate on double-precision numbers *)

(** IEEE-754 binary64 with the reference operations of [SpecFloat]: round to
    nearest, ties to even, overflow to an infinity, gradual underflow. *)
Module Binary64.

Definition prec : Z := 53.
Definition emax : Z := 1024.

Definition double : Type := spec_float.

Definition NaN : double := S754_nan.

(** The double nearest to an integer. *)
Definition ofZ (z : Z) : double := binary_normalize prec emax z 0 false.

Definition mul (x y : double) : double := SFmul prec emax x y.
Definition div (x y : double) : double := SFdiv prec emax x y.

(** The decimal literal [n / d] for [n] and [d] below 2^53: both are exact
    doubles, and their correctly rounded quotient is the double nearest to
    the decimal. *)
Definition dec (n d : Z) : double := div (ofZ n) (ofZ d).

Definition one : double := ofZ 1.


(** ToBoolean on a number: false on +0, -0 and NaN. *)
Definition truthy (x : double) : bool :=
  match x with
  | S754_zero _ | S754_nan => false
  | _ => true
  end.

(** [x === y]. *)
Definition strictEq (x y : double) : bool := SFeqb x y.

(** [(currency === 'USD' && thbUsdRate) ? (1 / thbUsdRate) : 1], App.tsx. *)
Definition conversionRate (currency : Currency) (thbUsdRate : option double)
    : double :=
  match currency, thbUsdRate with
  | USD, Some r => if truthy r then div one r else one
  | _, _ => one
  end.

End Binary64.

(* ================================================================== *)
(** ** Vocabulary of the properties *)

(** The sum of a list of numbers, added from the left starting at 0. *)
Definition sumNum (l : list num) : num := fold_left add l zero.

Definition totalInvested (data : list RawTransaction.t) : num :=
  sumNum (map RawTransaction.invested data).

Definition totalUnits (data : list RawTransaction.t) : num :=
  sumNum (map RawTransaction.assetPurchased data).

(** Rows 0..i of the record set. *)
Definition rowsUpTo (i : nat) (data : list RawTransaction.t)
    : list RawTransaction.t := firstn (S i) data.

(** Every element is [<=] the next one. *)
Fixpoint nondecreasing (l : list num) : bool :=
  match l with
  | a :: rest =>
      match rest with
      | b :: _ => le a b && nondecreasing rest
      | [] => true
      end
  | [] => true
  end.

Definition investedSeries (chart : list ChartDataPoint.t) : list num :=
  map ChartDataPoint.assetValue chart.

(** The cumulative-units series; a missing field reads as NaN. *)
Definition unitsSeries (chart : list ChartDataPoint.t) : list num :=
  map (fun p => match ChartDataPoint.cumulativeAmount p with
                | Some a => a
                | None => NaN
                end) chart.

(** The header cells [parseCsv] looks the column names up in. *)
Definition headerOf (csvText : string) : list string :=
  map trim (splitComma (hd EmptyString (splitLines (trim csvText)))).

Definition lineCount (csvText : string) : nat :=
  List.length (splitLines (trim csvText)).

(** The index of the first chart point a time range displays. *)
Definition rangeOffset (r : TimeRange) (len : nat) : nat :=
  match r with
  | W => (len - 7)%nat
  | M => (len - 30)%nat
  | Y => 0%nat
  end.

(** A finite number as a fraction in lowest terms. *)
Definition asQ (x : num) : option Q :=
  match x with
  | Fin q => Some (this q)
  | _ => None
  end.

(** A number that is finite and positive, or +Infinity. *)
Definition positive_num (x : num) : Prop :=
  match x with
  | Fin q => (Q2Qc 0 < q)%Qc
  | PInf => True
  | _ => False
  end.

(** A number that is finite and not negative, or +Infinity. *)
Definition nonneg_num (x : num) : Prop :=
  match x with
  | Fin q => (Q2Qc 0 <= q)%Qc
  | PInf => True
  | _ => False
  end.

(** The partial sums [acc + x0], [acc + x0 + x1], ... *)
Fixpoint runningSums (acc : num) (xs : list num) : list num :=
  match xs with
  | [] => []
  | x :: rest => add acc x :: runningSums (add acc x) rest
  end.

(** Some required column name is not a header cell. *)
Definition columnAbsent (csvText : string) (asset : AssetType) : Prop :=
  exists name : string,
    In name (Columns.values (COLUMN_MAP asset)) /\ ~ In name (headerOf csvText).

(** *** A host and inputs for the concrete runs *)

Module Sample.

(** A host restricted to the two dates of the sample sheets. *)
Definition dateParse (s : string) : JsDate :=
  if String.eqb s "2024-01-05" then ValidDate 1704412800000
  else if String.eqb s "2024-02-05" then ValidDate 1707091200000
  else InvalidDate.

Definition dateLabel (d : JsDate) : string :=
  match d with
  | ValidDate ms =>
      if ms =? 1704412800000 then "Jan 5"
      else if ms =? 1707091200000 then "Feb 5"
      else "Jan 1"
  | InvalidDate => "Invalid Date"
  end.

Definition nl : string := String LF EmptyString.

Definition btcHeader : string :=
  "Date,Invested (THB),BTC Price (THB),BTC Purchased".

(** Two purchases of 100 THB, at 50000 and at 60000 THB per coin. *)
Definition sheet : string :=
  (btcHeader ++ nl ++ "2024-01-05,100,50000,0.002" ++ nl
             ++ "2024-02-05,100,60000,0.00167")%string.

Definition row0 : RawTransaction.t :=
  {| RawTransaction.date := ValidDate 1704412800000;
     RawTransaction.invested := ofZ 100;
     RawTransaction.assetPrice := ofZ 50000;
     RawTransaction.assetPurchased := dec 2 1000 |}.

Definition row1 : RawTransaction.t :=
  {| RawTransaction.date := ValidDate 1707091200000;
     RawTransaction.invested := ofZ 100;
     RawTransaction.assetPrice := ofZ 60000;
     RawTransaction.assetPurchased := dec 167 100000 |}.

Definition rows : list RawTransaction.t := [row0; row1].

(** The date column comes last and the row stops before it. *)
Definition sheetMissingDateCell : string :=
  ("Invested (THB),BTC Price (THB),BTC Purchased,Date" ++ nl
   ++ "100,50000,0.002")%string.

(** A purchase recorded with zero units. *)
Definition sheetZeroUnits : string :=
  (btcHeader ++ nl ++ "2024-01-05,100,50000,0")%string.

(** A purchase followed by a row with negative units. *)
Definition sheetNegativeUnits : string :=
  (btcHeader ++ nl ++ "2024-01-05,100,1,1" ++ nl
             ++ "2024-02-05,100,1,-1")%string.

(** A header without the "BTC Purchased" column and no data row. *)
Definition sheetHeaderOnly : string := "Date,Invested (THB),BTC Price (THB)".

(** The same header followed by one row. *)
Definition sheetMissingColumn : string :=
  (sheetHeaderOnly ++ nl ++ "2024-01-05,100,50000")%string.

Definition livePrice (p : Z) : PriceInfo.t :=
  {| PriceInfo.price := ofZ p; PriceInfo.change24h := zero;
     PriceInfo.change24hPercentage := zero; PriceInfo.isMock := None |}.

Definition okSheet (text : string) : result SheetResponse.t :=
  Ok {| SheetResponse.ok := true; SheetResponse.status := 200;
        SheetResponse.text := text |}.

(** The price requests rejected by the network. *)
Definition failedFetch {A : Type} : result (Response.t A) :=
  Throw "Failed to fetch".

Definition now : JsDate := ValidDate 1707100000000.

Definition coinResponse (p : Z) : result (Response.t CoinMarket.t) :=
  Ok {| Response.ok := true; Response.status := 200;
        Response.first :=
          Ok (Some {| CoinMarket.current_price := ofZ p;
                      CoinMarket.price_change_24h := zero;
                      CoinMarket.price_change_percentage_24h := zero |}) |}.

Definition goldResponse (xau : Z) : result (Response.t GoldItem.t) :=
  Ok {| Response.ok := true; Response.status := 200;
        Response.first :=
          Ok (Some {| GoldItem.xauPrice := ofZ xau;
                      GoldItem.chgXau := zero;
                      GoldItem.pcXau := zero |}) |}.

(** A price batch with BTC at [btcThb] THB and 2000 USD. *)
Definition pricesFetch (btcThb : Z) : result LivePrices.t :=
  fetchLivePrices (coinResponse 2000) (coinResponse btcThb)
                  (goldResponse 62207) (goldResponse 1777).

(** A price batch whose four requests are rejected. *)
Definition pricesFailed : result LivePrices.t :=
  fetchLivePrices failedFetch failedFetch failedFetch failedFetch.

(** The sample sheet, fetched and parsed. *)
Definition sheetFetch : result AllDca.t :=
  fetchAllDcaData dateParse dateLabel (okSheet sheet).

Definition hasBtcSummary (r : result AllDca.t) : bool :=
  match r with
  | Ok d =>
      match DcaBundle.summaryData (AllDca.btc d) with
      | Some _ => true
      | None => false
      end
  | Throw _ => false
  end.


(** Historical data loaded, a gold price of 29420 THB per 14.71 g stored. *)
Definition goldWithPrice : App.State :=
  {| App.loading := false; App.error := None;
     App.allDcaData :=
       Some {| AllDca.btc := processData dateLabel [];
               AllDca.gold := processData dateLabel rows |};
     App.timeRange := Y; App.currency := THB; App.selectedAsset := GOLD;
     App.livePrices :=
       Some {| LiveAssetPriceData.btc := None;
               LiveAssetPriceData.gold :=
                 Some {| CurrencyPrices.thb := livePrice 29420;
                         CurrencyPrices.usd := livePrice 800 |} |};
     App.thbUsdRate := Some (ofZ 35);
     App.livePriceError := None; App.livePriceLastUpdated := Some now;
     App.isRefreshing := false |}.

End Sample.

(* ================================================================== *)
(** ** Number formatting: toFixed, Math.min and Math.max, utils/formatters.ts *)

Module JsFormat.

(** The digits of the decimal representation of a non-negative integer, with
    no leading zeroes. *)
Definition digitsOf (n : Z) : string :=
  NilZero.string_of_uint (N.to_uint (Z.to_N n)).

Fixpoint zeros (k : nat) : string :=
  match k with
  | O => EmptyString
  | S k' => String "0" (zeros k')
  end.

(** The digit string [m] with the decimal point [f] places from its end,
    padded in front with zeroes when it has no more than [f] digits. *)
Definition withPoint (f : nat) (m : string) : string :=
  match f with
  | O => m
  | S _ =>
      let m1 :=
        if (String.length m <=? f)%nat
        then (zeros (f + 1 - String.length m) ++ m)%string
        else m in
      let k := String.length m1 in
      (substring 0 (k - f) m1 ++ "." ++ substring (k - f) f m1)%string
  end.

Definition pow10 (f : nat) : Q := inject_Z (10 ^ Z.of_nat f).

Section Host.

(** The host's [Number::toString]. *)
Variable numberToString : num -> string.

(** [x.toFixed(f)]. *)
Definition toFixed (f : nat) (x : num) : string :=
  match x with
  | NaN => "NaN"
  | PInf => "Infinity"
  | NInf => "-Infinity"
  | Fin q =>
      let s := match sgn q with Lt => "-" | _ => "" end in
      let a := Qabs q in
      let m :=
        if Qle_bool toFixedLimit a then numberToString (ofQ a)
        else withPoint f (digitsOf (Qfloor (a * pow10 f + (1 # 2)))) in
      (s ++ m)%string
  end.

(** [formatPercentage]. *)
Definition formatPercentage (value : num) : string :=
  (toFixed 2 value ++ "%")%string.

(** [formatCompactNumber]. *)
Definition formatCompactNumber (value : num) : string :=
  if ge value (ofZ 1000)
  then (toFixed 0 (div value (ofZ 1000)) ++ "K")%string
  else numberToString value.

End Host.

(** [Math.max(a, b)] and [Math.min(a, b)]: NaN as soon as one side is. *)
Definition mathMax (a b : num) : num :=
  if isNaN a || isNaN b then NaN else if lt a b then b else a.

Definition mathMin (a b : num) : num :=
  if isNaN a || isNaN b then NaN else if lt b a then b else a.

End JsFormat.

(** *** The profit panel of App.tsx *)

Module ProfitPanel.

(** The width of the bar, in percent:
    [Math.max(0, Math.min(100, 50 + profitPercentage / 2))]. *)
Definition barWidth (profitPercentage : num) : num :=
  JsFormat.mathMax zero
    (JsFormat.mathMin hundred (add (ofZ 50) (div profitPercentage (ofZ 2)))).

(** [profitPercentage >= 0]: the green colour; red otherwise. *)
Definition isGreen (profitPercentage : num) : bool := ge profitPercentage zero.

End ProfitPanel.

(** *** Further vocabulary *)

(** Every character is a decimal digit. *)
Fixpoint allDigits (s : string) : bool :=
  match s with
  | EmptyString => true
  | String c rest => isDigit c && allDigits rest
  end.

(** The value of a digit string read from the left, continued from [acc]. *)
Fixpoint digitsValue (acc : Z) (s : string) : Z :=
  match s with
  | EmptyString => acc
  | String c rest => digitsValue (10 * acc + digitVal c) rest
  end.

(** What may follow a printed number without being read as part of it: the
    end of the string, or a character that is no digit, point or exponent
    mark. *)
Definition inertSuffix (rest : string) : bool :=
  match rest with
  | EmptyString => true
  | String c _ =>
      negb (isDigit c || Ascii.eqb c "." || Ascii.eqb c "e" || Ascii.eqb c "E")
  end.

(** A finite number of magnitude below 10^21, or NaN or an infinity: the
    numbers [toFixed] prints itself. *)
Definition printable (x : num) : bool :=
  match x with
  | Fin q => negb (Qle_bool toFixedLimit (Qabs q))
  | _ => true
  end.

(** The nearest multiple of 10^-f, half away from zero. *)
Definition roundTo (f : nat) (q : Q) : Q :=
  match (q ?= 0)%Q with
  | Lt => (- (Qfloor (Qabs q * JsFormat.pow10 f + (1 # 2)) # Z.to_pos (10 ^ Z.of_nat f)))%Q
  | _ => (Qfloor (Qabs q * JsFormat.pow10 f + (1 # 2)) # Z.to_pos (10 ^ Z.of_nat f))%Q
  end.

(** A settled request the price batch can use: fulfilled, with an ok
    response whose body holds a first element. *)
Definition usable {A : Type} (r : result (Response.t A)) : bool :=
  match r with
  | Ok resp =>
      Response.ok resp
      && match Response.first resp with
         | Ok (Some _) => true
         | _ => false
         end
  | Throw _ => false
  end.

(** Both assets carry their prices. *)
Definition completePrices (p : LiveAssetPriceData.t) : bool :=
  match LiveAssetPriceData.btc p, LiveAssetPriceData.gold p with
  | Some _, Some _ => true
  | _, _ => false
  end.

(** The prices an event stores have both assets, as those [fetchLivePrices]
    returns. *)
Definition storesCompletePrices (e : App.Event) : Prop :=
  match e with
  | App.InitialLoad _ (Ok (_, p)) => completePrices (LivePrices.prices p) = true
  | App.Refresh _ (Ok (_, p)) => completePrices (LivePrices.prices p) = true
  | App.Tick _ (Ok p) => completePrices (LivePrices.prices p) = true
  | _ => True
  end.

(** The states reached through such events. *)
Inductive serviceReachable : App.State -> Prop :=
| service_initial : serviceReachable App.initial
| service_step : forall s e,
    serviceReachable s -> storesCompletePrices e ->
    serviceReachable (App.step s e).

(* ================================================================== *)
(** ** Arithmetic of the number model *)

Lemma sgn_Eq (q : Qc) : sgn q = Eq <-> q = Q2Qc 0.
Proof. unfold sgn. symmetry. apply Qceq_alt. Qed.

Lemma sgn_Gt (q : Qc) : sgn q = Gt <-> (Q2Qc 0 < q)%Qc.
Proof. unfold sgn. symmetry. apply Qcgt_alt. Qed.

Lemma sgn_Lt (q : Qc) : sgn q = Lt <-> (q < Q2Qc 0)%Qc.
Proof. unfold sgn. symmetry. apply Qclt_alt. Qed.

Lemma mul_one_r (x : num) : mul x one = x.
Proof.
  destruct x as [| | |q]; try reflexivity.
  unfold one, ofZ, ofQ, mul. f_equal.
  change (Q2Qc (inject_Z 1)) with (Q2Qc 1).
  apply Qcmult_1_r.
Qed.

Lemma le_Fin (a b : Qc) : le (Fin a) (Fin b) = true <-> (a <= b)%Qc.
Proof.
  unfold le. rewrite Qcle_alt.
  destruct (a ?= b)%Qc; split; intro H; try reflexivity;
    try discriminate; try congruence.
Qed.

Lemma lt_Fin (a b : Qc) : lt (Fin a) (Fin b) = true <-> (a < b)%Qc.
Proof.
  unfold lt. rewrite Qclt_alt.
  destruct (a ?= b)%Qc; split; intro H; try reflexivity;
    try discriminate; try congruence.
Qed.

Lemma gt_zero_positive (x : num) : gt x zero = true <-> positive_num x.
Proof.
  destruct x as [| | |q].
  - split; [discriminate | intros []].
  - split; [intros _; exact I | reflexivity].
  - split; [discriminate | intros []].
  - unfold gt, zero, ofZ, ofQ. rewrite lt_Fin. reflexivity.
Qed.

Lemma le_zero_nonneg (x : num) : le zero x = true <-> nonneg_num x.
Proof.
  destruct x as [| | |q].
  - split; [discriminate | intros []].
  - split; [intros _; exact I | reflexivity].
  - split; [discriminate | intros []].
  - unfold zero, ofZ, ofQ. rewrite le_Fin. reflexivity.
Qed.

Lemma positive_nonneg (x : num) : positive_num x -> nonneg_num x.
Proof.
  destruct x; simpl; auto. apply Qclt_le_weak.
Qed.

Lemma nonneg_zero : nonneg_num zero.
Proof. apply le_zero_nonneg. reflexivity. Qed.


(* ================================================================== *)
(** ** The running fold of [processData] *)

Section Aggregator.

Variable dateLabel : JsDate -> string.

(** The totals after a scan are the totals before it plus the two columns. *)
Lemma chartScan_totals (data : list RawTransaction.t) (acc : Totals.t) :
  fst (chartScan dateLabel acc data) =
  {| Totals.cumulativeInvested :=
       fold_left add (map RawTransaction.invested data)
                 (Totals.cumulativeInvested acc);
     Totals.cumulativeAmount :=
       fold_left add (map RawTransaction.assetPurchased data)
                 (Totals.cumulativeAmount acc) |}.
Proof.
  revert acc. induction data as [|point rest IH]; intro acc.
  - destruct acc; reflexivity.
  - cbn [chartScan]. unfold chartStep.
    match goal with
    | |- context [chartScan dateLabel ?a rest] =>
        specialize (IH a); destruct (chartScan dateLabel a rest) as [acc2 ps]
    end.
    cbn [fst] in *. rewrite IH. reflexivity.
Qed.

Lemma chartScan_length (data : list RawTransaction.t) (acc : Totals.t) :
  List.length (snd (chartScan dateLabel acc data)) = List.length data.
Proof.
  revert acc. induction data as [|point rest IH]; intro acc.
  - reflexivity.
  - cbn [chartScan]. unfold chartStep.
    match goal with
    | |- context [chartScan dateLabel ?a rest] =>
        specialize (IH a); destruct (chartScan dateLabel a rest) as [acc2 ps]
    end.
    cbn [snd List.length] in *. now rewrite IH.
Qed.

(** The chart point at index [i], for any starting totals. *)
Lemma chartScan_nth (data : list RawTransaction.t) (acc : Totals.t)
    (i : nat) (row : RawTransaction.t) :
  nth_error data i = Some row ->
  nth_error (snd (chartScan dateLabel acc data)) i =
  Some
    (let units :=
       fold_left add (map RawTransaction.assetPurchased (firstn (S i) data))
                 (Totals.cumulativeAmount acc) in
     {| ChartDataPoint.date := dateLabel (RawTransaction.date row);
        ChartDataPoint.portValue :=
          toFixed2 (mul units (RawTransaction.assetPrice row));
        ChartDataPoint.assetValue :=
          toFixed2 (fold_left add
                      (map RawTransaction.invested (firstn (S i) data))
                      (Totals.cumulativeInvested acc));
        ChartDataPoint.cumulativeAmount := Some units |}).
Proof.
  revert acc i. induction data as [|point rest IH]; intros acc i Hrow.
  - destruct i; discriminate.
  - cbn [chartScan]. unfold chartStep.
    match goal with
    | |- context [chartScan dateLabel ?a rest] =>
        pose proof (IH a) as IHa; destruct (chartScan dateLabel a rest) as [acc2 ps]
    end.
    cbn [snd] in *. destruct i as [|j].
    + cbn in Hrow. injection Hrow as <-. reflexivity.
    + cbn [nth_error] in *. rewrite (IHa j Hrow). reflexivity.
Qed.

Lemma processData_chart (data : list RawTransaction.t) :
  DcaBundle.chartData (processData dateLabel data) =
  snd (chartScan dateLabel Totals.init data).
Proof.
  destruct data as [|first rest]; [reflexivity|].
  unfold processData.
  destruct (chartScan dateLabel Totals.init (first :: rest)); reflexivity.
Qed.

(** The summary of a non-empty record set, in terms of the column sums. *)
Lemma processData_summary (data : list RawTransaction.t)
    (first : RawTransaction.t) (rest : list RawTransaction.t) :
  data = first :: rest ->
  DcaBundle.summaryData (processData dateLabel data) =
  Some
    (let finalPortValue :=
       mul (totalUnits data) (RawTransaction.assetPrice (last data first)) in
     {| SummaryData.profitPercentage :=
          mul (div (sub finalPortValue (totalInvested data)) (totalInvested data))
              hundred;
        SummaryData.totalCapital := totalInvested data;
        SummaryData.entryPrice := div (totalInvested data) (totalUnits data);
        SummaryData.startDate := RawTransaction.date first;
        SummaryData.portValue := finalPortValue;
        SummaryData.lastUpdated := RawTransaction.date (last data first);
        SummaryData.totalAmount := totalUnits data |}).
Proof.
  intros ->. unfold processData.
  pose proof (chartScan_totals (first :: rest) Totals.init) as Ht.
  destruct (chartScan dateLabel Totals.init (first :: rest)) as [totals chart].
  cbn [fst] in Ht. subst totals. reflexivity.
Qed.

End Aggregator.

(** C1.  For a non-empty record set, [processData] returns as many chart
    points as there are rows, and the point at index [i] has
    [portValue] = (sum of [assetPurchased] over rows 0..i) x ([assetPrice] of
    row i) rounded to 2 decimals, [assetValue] = (sum of [invested] over rows
    0..i) rounded to 2 decimals, and [cumulativeAmount] = the unrounded sum
    of [assetPurchased] over rows 0..i. *)
Theorem processData_chart_points
    (dateLabel : JsDate -> string) (data : list RawTransaction.t) :
  data <> [] ->
  let chart := DcaBundle.chartData (processData dateLabel data) in
  List.length chart = List.length data /\
  forall (i : nat) (row : RawTransaction.t),
    nth_error data i = Some row ->
    exists pt : ChartDataPoint.t,
      nth_error chart i = Some pt /\
      ChartDataPoint.portValue pt =
        toFixed2 (mul (totalUnits (rowsUpTo i data))
                      (RawTransaction.assetPrice row)) /\
      ChartDataPoint.assetValue pt =
        toFixed2 (totalInvested (rowsUpTo i data)) /\
      ChartDataPoint.cumulativeAmount pt =
        Some (totalUnits (rowsUpTo i data)).
Proof.
  intros _ chart. subst chart. rewrite processData_chart. split.
  - apply chartScan_length.
  - intros i row Hrow. eexists. split.
    + apply chartScan_nth. exact Hrow.
    + cbn. repeat split.
Qed.

Lemma processData_chart_points_witness :
  Sample.rows <> [] /\
  let chart := DcaBundle.chartData (processData Sample.dateLabel Sample.rows) in
  List.length chart = List.length Sample.rows /\
  forall (i : nat) (row : RawTransaction.t),
    nth_error Sample.rows i = Some row ->
    exists pt : ChartDataPoint.t,
      nth_error chart i = Some pt /\
      ChartDataPoint.portValue pt =
        toFixed2 (mul (totalUnits (rowsUpTo i Sample.rows))
                      (RawTransaction.assetPrice row)) /\
      ChartDataPoint.assetValue pt =
        toFixed2 (totalInvested (rowsUpTo i Sample.rows)) /\
      ChartDataPoint.cumulativeAmount pt =
        Some (totalUnits (rowsUpTo i Sample.rows)).
Proof.
  split.
  - discriminate.
  - apply (processData_chart_points Sample.dateLabel Sample.rows). discriminate.
Defined.

(* ================================================================== *)
(** ** The transaction parser *)

Lemma indexOfFrom_absent (x : string) (l : list string) (i : Z) :
  ~ In x l -> indexOfFrom i x l = -1.
Proof.
  revert i. induction l as [|y rest IH]; intros i Hnot; [reflexivity|].
  cbn [indexOfFrom]. destruct (String.eqb_spec y x) as [->|Hne].
  - exfalso. apply Hnot. now left.
  - apply IH. intro Hin. apply Hnot. now right.
Qed.

Lemma indexOfFrom_present (x : string) (l : list string) (i : Z) :
  In x l -> 0 <= i -> i <= indexOfFrom i x l.
Proof.
  revert i. induction l as [|y rest IH]; intros i Hin Hi; [destruct Hin|].
  cbn [indexOfFrom]. destruct (String.eqb_spec y x) as [->|Hne].
  - lia.
  - destruct Hin as [->|Hin]; [congruence|].
    specialize (IH (i + 1) Hin). lia.
Qed.

Lemma indexOf_absent_iff (header : list string) (x : string) :
  indexOf header x = -1 <-> ~ In x header.
Proof.
  unfold indexOf. split.
  - intros Heq Hin. pose proof (indexOfFrom_present x header 0 Hin). lia.
  - apply indexOfFrom_absent.
Qed.

Lemma includesMinusOne_iff (a b c d : Z) :
  includesMinusOne [a; b; c; d] = true <->
  a = -1 \/ b = -1 \/ c = -1 \/ d = -1.
Proof.
  unfold includesMinusOne. cbn [existsb].
  rewrite !orb_true_iff, !Z.eqb_eq. intuition congruence.
Qed.

Lemma columnAbsent_index (csvText : string) (asset : AssetType) :
  columnAbsent csvText asset ->
  includesMinusOne
    [indexOf (headerOf csvText) (Columns.date (COLUMN_MAP asset));
     indexOf (headerOf csvText) (Columns.invested (COLUMN_MAP asset));
     indexOf (headerOf csvText) (Columns.price (COLUMN_MAP asset));
     indexOf (headerOf csvText) (Columns.purchased (COLUMN_MAP asset))] = true.
Proof.
  intros (name & Hin & Habs). apply includesMinusOne_iff.
  apply indexOf_absent_iff in Habs. unfold Columns.values in Hin.
  cbn [In] in Hin. intuition (subst; auto).
Qed.

Lemma parseCsv_short (dateParse : string -> JsDate) (csvText : string) (asset : AssetType) :
  (lineCount csvText < 2)%nat ->
  parseCsv dateParse csvText asset =
  {| ParseResult.data := []; ParseResult.error := Some emptyCsvError |}.
Proof.
  intro Hlen. unfold parseCsv. fold (lineCount csvText).
  apply Nat.ltb_lt in Hlen. now rewrite Hlen.
Qed.

Lemma parseCsv_missing (dateParse : string -> JsDate) (csvText : string) (asset : AssetType) :
  (2 <= lineCount csvText)%nat ->
  columnAbsent csvText asset ->
  parseCsv dateParse csvText asset =
  {| ParseResult.data := [];
     ParseResult.error := Some (missingColumnsError asset) |}.
Proof.
  intros Hlen Habs. unfold parseCsv. fold (lineCount csvText).
  apply Nat.ltb_ge in Hlen. rewrite Hlen.
  fold (headerOf csvText). now rewrite (columnAbsent_index _ _ Habs).
Qed.

(** With all four columns found, the record set is the kept parsed rows. *)
Lemma parseCsv_rows (dateParse : string -> JsDate) (csvText : string) (asset : AssetType) :
  ParseResult.error (parseCsv dateParse csvText asset) = None ->
  exists di ii pi ui : Z,
    ParseResult.data (parseCsv dateParse csvText asset) =
    filter keepRow
      (map (parseRow dateParse di ii pi ui) (tl (splitLines (trim csvText)))).
Proof.
  unfold parseCsv.
  destruct (List.length (splitLines (trim csvText)) <? 2)%nat; [discriminate|].
  match goal with
  | |- context [includesMinusOne ?l] => destruct (includesMinusOne l)
  end; [discriminate|].
  intros _. do 4 eexists. reflexivity.
Qed.

(** The date plays no part in the filter. *)
Lemma keepRow_spec (d : RawTransaction.t) :
  keepRow d = true <->
  isNaN (RawTransaction.invested d) = false /\
  isNaN (RawTransaction.assetPrice d) = false /\
  isNaN (RawTransaction.assetPurchased d) = false /\
  gt (RawTransaction.invested d) zero = true.
Proof.
  unfold keepRow, dateTruthy. cbn [andb].
  rewrite !andb_true_iff, !negb_true_iff. tauto.
Qed.

Lemma keepRow_ignores_date (d1 d2 : JsDate) (i p u : num) :
  keepRow (RawTransaction.mk d1 i p u) = keepRow (RawTransaction.mk d2 i p u).
Proof. reflexivity. Qed.

Lemma keepRow_positive (d : RawTransaction.t) :
  keepRow d = true -> positive_num (RawTransaction.invested d).
Proof.
  intro H. apply keepRow_spec in H. apply gt_zero_positive. tauto.
Qed.

Lemma missingColumnsError_truthy (asset : AssetType) :
  strTruthy (Some (missingColumnsError asset)) = true.
Proof. destruct asset; reflexivity. Qed.

Lemma missingColumnsError_names (asset : AssetType) :
  includes (missingColumnsError asset) (assetName asset) = true /\
  forall name : string,
    In name (Columns.values (COLUMN_MAP asset)) ->
    includes (missingColumnsError asset) name = true.
Proof.
  destruct asset; (split; [vm_compute; reflexivity|]);
    intros name Hin; cbn [Columns.values COLUMN_MAP In] in Hin;
    cbn in Hin; intuition (subst; vm_compute; reflexivity).
Qed.

(** C2, at the input where the code departs from it: the row has no date
    cell, so its date is the Invalid Date, and it is kept all the same; it
    then counts in the totals of the bundle. *)
Theorem parseCsv_keeps_row_with_invalid_date
    (dateParse : string -> JsDate) (dateLabel : JsDate -> string) :
  exists (row : RawTransaction.t) (sd : SummaryData.t),
    parseCsv dateParse Sample.sheetMissingDateCell BTC =
      {| ParseResult.data := [row]; ParseResult.error := None |} /\
    RawTransaction.date row = InvalidDate /\
    DcaBundle.summaryData
      (bundleFor dateParse dateLabel Sample.sheetMissingDateCell BTC) = Some sd /\
    asQ (SummaryData.totalCapital sd) = Some (100 # 1)%Q /\
    asQ (SummaryData.totalAmount sd) = Some (1 # 500)%Q.
Proof.
  set (r := parseCsv dateParse Sample.sheetMissingDateCell BTC).
  set (b := bundleFor dateParse dateLabel Sample.sheetMissingDateCell BTC).
  vm_compute in r. vm_compute in b. subst r b.
  do 2 eexists. repeat split.
Qed.

(** C8, as amended.  When a required column name is missing from the header
    cells, the bundle of that asset has no chart point, no raw transaction
    and no summary.  If the sheet has at least two lines the error is the
    missing-columns message, which names the asset and lists the four
    expected headers; if it has fewer, the error is the empty-sheet
    message. *)
Theorem missing_column_gives_error_bundle
    (dateParse : string -> JsDate) (dateLabel : JsDate -> string)
    (csvText : string) (asset : AssetType) :
  columnAbsent csvText asset ->
  let bundle := bundleFor dateParse dateLabel csvText asset in
  DcaBundle.chartData bundle = [] /\
  DcaBundle.rawData bundle = [] /\
  DcaBundle.summaryData bundle = None /\
  ((2 <= lineCount csvText)%nat ->
     parseCsv dateParse csvText asset =
       {| ParseResult.data := [];
          ParseResult.error := Some (missingColumnsError asset) |} /\
     DcaBundle.error bundle = Some (missingColumnsError asset)) /\
  ((lineCount csvText < 2)%nat ->
     DcaBundle.error bundle = Some emptyCsvError) /\
  includes (missingColumnsError asset) (assetName asset) = true /\
  (forall name : string,
     In name (Columns.values (COLUMN_MAP asset)) ->
     includes (missingColumnsError asset) name = true).
Proof.
  intros Habs bundle. subst bundle. unfold bundleFor.
  destruct (missingColumnsError_names asset) as [Hasset Hnames].
  destruct (Nat.lt_ge_cases (lineCount csvText) 2) as [Hshort|Hlong].
  - rewrite (parseCsv_short dateParse csvText asset Hshort).
    cbn. split; [reflexivity|]. split; [reflexivity|]. split; [reflexivity|].
    split; [intro Hlen; exfalso; lia|]. split; [reflexivity|].
    split; assumption.
  - rewrite (parseCsv_missing dateParse csvText asset Hlong Habs).
    cbn [ParseResult.error ParseResult.data].
    rewrite missingColumnsError_truthy.
    cbn. split; [reflexivity|]. split; [reflexivity|]. split; [reflexivity|].
    split; [intros _; split; reflexivity|].
    split; [intro Hlen; exfalso; lia|].
    split; assumption.
Qed.

Lemma missing_column_gives_error_bundle_witness :
  columnAbsent Sample.sheetMissingColumn BTC /\
  let bundle :=
    bundleFor Sample.dateParse Sample.dateLabel Sample.sheetMissingColumn BTC in
  DcaBundle.chartData bundle = [] /\
  DcaBundle.rawData bundle = [] /\
  DcaBundle.summaryData bundle = None /\
  ((2 <= lineCount Sample.sheetMissingColumn)%nat ->
     parseCsv Sample.dateParse Sample.sheetMissingColumn BTC =
       {| ParseResult.data := [];
          ParseResult.error := Some (missingColumnsError BTC) |} /\
     DcaBundle.error bundle = Some (missingColumnsError BTC)) /\
  ((lineCount Sample.sheetMissingColumn < 2)%nat ->
     DcaBundle.error bundle = Some emptyCsvError) /\
  includes (missingColumnsError BTC) (assetName BTC) = true /\
  (forall name : string,
     In name (Columns.values (COLUMN_MAP BTC)) ->
     includes (missingColumnsError BTC) name = true).
Proof.
  assert (Habs : columnAbsent Sample.sheetMissingColumn BTC).
  { exists "BTC Purchased". split.
    - vm_compute. tauto.
    - vm_compute. intros [H|[H|[H|[]]]]; discriminate H. }
  split.
  - exact Habs.
  - apply (missing_column_gives_error_bundle Sample.dateParse Sample.dateLabel
             Sample.sheetMissingColumn BTC Habs).
Defined.

(** C8 as stated fails on a sheet that stops after its header: the column
    "BTC Purchased" is missing, yet the error is the empty-sheet message,
    which names neither the asset nor the expected headers. *)
Lemma header_only_sheet_reports_empty_sheet :
  columnAbsent Sample.sheetHeaderOnly BTC /\
  ParseResult.error (parseCsv Sample.dateParse Sample.sheetHeaderOnly BTC)
    = Some emptyCsvError /\
  DcaBundle.error
    (bundleFor Sample.dateParse Sample.dateLabel Sample.sheetHeaderOnly BTC)
    = Some emptyCsvError /\
  emptyCsvError <> missingColumnsError BTC /\
  includes emptyCsvError (assetName BTC) = false /\
  includes emptyCsvError "BTC Purchased" = false.
Proof.
  split.
  - exists "BTC Purchased". split.
    + vm_compute. tauto.
    + vm_compute. intros [H|[H|[H|[]]]]; discriminate H.
  - repeat split; try (vm_compute; reflexivity).
    vm_compute. discriminate.
Qed.

(* ================================================================== *)
(** ** Order facts: sums of non-negative amounts, rounding *)

Lemma Q2Qc_this (q : Q) : (this (Q2Qc q) == q)%Q.
Proof. apply Qred_correct. Qed.

Lemma le_ofQ (x y : Q) : le (ofQ x) (ofQ y) = true <-> (x <= y)%Q.
Proof.
  unfold ofQ. rewrite le_Fin. unfold Qcle. now rewrite !Q2Qc_this.
Qed.

Lemma le_ofQ_Fin (x : Q) (b : Qc) : le (ofQ x) (Fin b) = true <-> (x <= this b)%Q.
Proof.
  unfold ofQ. rewrite le_Fin. unfold Qcle. now rewrite Q2Qc_this.
Qed.

Lemma Qc_nonneg_this (q : Qc) : (Q2Qc 0 <= q)%Qc <-> (0 <= this q)%Q.
Proof. unfold Qcle. now rewrite Q2Qc_this. Qed.

Lemma Qc_pos_this (q : Qc) : (Q2Qc 0 < q)%Qc <-> (0 < this q)%Q.
Proof. unfold Qclt. now rewrite Q2Qc_this. Qed.

Lemma Qcplus_this (a b : Qc) : (this (a + b)%Qc == this a + this b)%Q.
Proof. unfold Qcplus. apply Q2Qc_this. Qed.

Lemma add_nonneg (a x : num) :
  nonneg_num a -> nonneg_num x ->
  nonneg_num (add a x) /\ le a (add a x) = true.
Proof.
  destruct a as [| | |qa], x as [| | |qx]; cbn [nonneg_num add];
    try tauto; intros Ha Hx; try (split; [exact I | reflexivity]).
  apply -> Qc_nonneg_this in Ha. apply -> Qc_nonneg_this in Hx. split.
  - apply <- Qc_nonneg_this. rewrite Qcplus_this. lra.
  - apply le_Fin. unfold Qcle. rewrite Qcplus_this. lra.
Qed.

Lemma add_nonneg_positive (a x : num) :
  nonneg_num a -> positive_num x -> positive_num (add a x).
Proof.
  destruct a as [| | |qa], x as [| | |qx]; cbn [nonneg_num positive_num add];
    try tauto.
  intros Ha Hx. apply -> Qc_nonneg_this in Ha. apply -> Qc_pos_this in Hx.
  apply <- Qc_pos_this. rewrite Qcplus_this. lra.
Qed.

(** A non-empty sum of positive amounts is positive. *)
Lemma fold_add_positive (xs : list num) (acc : num) :
  nonneg_num acc -> Forall positive_num xs -> xs <> [] ->
  positive_num (fold_left add xs acc).
Proof.
  revert acc. induction xs as [|x rest IH]; intros acc Hacc Hxs Hne;
    [congruence|].
  inversion Hxs as [|? ? Hx Hrest]; subst. cbn [fold_left].
  pose proof (add_nonneg_positive acc x Hacc Hx) as Hpos.
  destruct rest as [|y rest'].
  - exact Hpos.
  - apply IH; [now apply positive_nonneg | exact Hrest | discriminate].
Qed.

Lemma roundHalfUp2_mono (a b : Q) :
  (a <= b)%Q -> (roundHalfUp2 a <= roundHalfUp2 b)%Q.
Proof.
  intro Hab. unfold roundHalfUp2.
  assert (Hfl : (Qfloor (a * 100 + (1 # 2)) <= Qfloor (b * 100 + (1 # 2)))%Z).
  { apply Qfloor_resp_le. lra. }
  unfold Qle. cbn [Qnum Qden]. lia.
Qed.

Lemma roundHalfUp2_limit (a : Q) :
  (a < toFixedLimit)%Q -> (roundHalfUp2 a <= toFixedLimit)%Q.
Proof.
  intro Ha. unfold roundHalfUp2, toFixedLimit in *.
  assert (Hfl : (Qfloor (a * 100 + (1 # 2)) <= 10 ^ 23)%Z).
  { assert (Hlt : (Qfloor (a * 100 + (1 # 2)) < 10 ^ 23 + 1)%Z).
    { pose proof (Qfloor_le (a * 100 + (1 # 2))) as Hle.
      assert (Hq : (inject_Z (Qfloor (a * 100 + (1 # 2))) < inject_Z (10 ^ 23 + 1))%Q).
      { eapply Qle_lt_trans; [exact Hle|].
        assert (Hc : (inject_Z (10 ^ 23 + 1) == inject_Z (10 ^ 21) * 100 + 1)%Q)
          by (vm_compute; reflexivity).
        rewrite Hc. lra. }
      now rewrite <- Zlt_Qlt in Hq. }
    lia. }
  unfold Qle. cbn [Qnum Qden inject_Z]. 
  change (10 ^ 21)%Z with 1000000000000000000000%Z.
  change (10 ^ 23)%Z with 100000000000000000000000%Z in Hfl. lia.
Qed.

(** [toFixed2] on a finite number that is not negative. *)
Lemma toFixed2_nonneg (q : Qc) :
  (0 <= this q)%Q ->
  (Qle_bool toFixedLimit (Qabs (this q)) = true /\ toFixed2 (Fin q) = Fin q) \/
  (Qle_bool toFixedLimit (Qabs (this q)) = false /\
   toFixed2 (Fin q) = ofQ (roundHalfUp2 (Qabs (this q)))).
Proof.
  intro Hq. unfold toFixed2.
  destruct (Qle_bool toFixedLimit (Qabs (this q))) eqn:Hlim.
  - left. split; reflexivity.
  - right. split; [reflexivity|].
    destruct (sgn q) eqn:Hs; try reflexivity.
    apply sgn_Lt in Hs. change (this q < 0)%Q in Hs. lra.
Qed.

Lemma toFixed2_mono (a b : num) :
  nonneg_num a -> le a b = true -> le (toFixed2 a) (toFixed2 b) = true.
Proof.
  destruct a as [| | |qa]; cbn [nonneg_num]; try tauto.
  - destruct b; intros _ Hle; try discriminate Hle. reflexivity.
  - intros Ha Hle. apply -> Qc_nonneg_this in Ha.
    assert (Haa : (Qabs (this qa) == this qa)%Q) by now apply Qabs_pos.
    destruct b as [| | |qb]; try discriminate Hle.
    + destruct (toFixed2_nonneg qa Ha) as [[_ ->]|[_ ->]]; reflexivity.
    + apply le_Fin in Hle. unfold Qcle in Hle.
      assert (Hb : (0 <= this qb)%Q) by lra.
      assert (Hbb : (Qabs (this qb) == this qb)%Q) by now apply Qabs_pos.
      destruct (toFixed2_nonneg qa Ha) as [[La ->]|[La ->]];
        destruct (toFixed2_nonneg qb Hb) as [[Lb ->]|[Lb ->]].
      * apply le_Fin. exact Hle.
      * exfalso. apply Qle_bool_iff in La.
        assert (Hnb : ~ (toFixedLimit <= Qabs (this qb))%Q).
        { intro H. apply Qle_bool_iff in H. congruence. }
        apply Hnb. rewrite Hbb. rewrite Haa in La. lra.
      * apply le_ofQ_Fin. apply Qle_bool_iff in Lb. rewrite Hbb in Lb.
        assert (Hna : (Qabs (this qa) < toFixedLimit)%Q).
        { apply Qnot_le_lt. intro H. apply Qle_bool_iff in H. congruence. }
        pose proof (roundHalfUp2_limit _ Hna). lra.
      * apply le_ofQ. apply roundHalfUp2_mono. rewrite Haa, Hbb. exact Hle.
Qed.

Lemma nondecreasing_tail (a : num) (l : list num) :
  nondecreasing (a :: l) = true -> nondecreasing l = true.
Proof.
  destruct l as [|b rest]; [reflexivity|].
  cbn [nondecreasing]. intro H. apply andb_true_iff in H. tauto.
Qed.

(** Partial sums of non-negative amounts never go down, also after a
    monotone post-processing [g] such as the rounding. *)
Lemma runningSums_nondecreasing (g : num -> num) :
  (forall a b, nonneg_num a -> le a b = true -> le (g a) (g b) = true) ->
  forall (xs : list num) (acc : num),
    nonneg_num acc -> Forall nonneg_num xs ->
    nondecreasing (g acc :: map g (runningSums acc xs)) = true.
Proof.
  intros Hg xs. induction xs as [|x rest IH]; intros acc Hacc Hxs.
  - reflexivity.
  - inversion Hxs as [|? ? Hx Hrest]; subst.
    destruct (add_nonneg acc x Hacc Hx) as [Hnn Hle].
    cbn [runningSums map]. 
    change (nondecreasing (g acc :: g (add acc x) :: map g (runningSums (add acc x) rest)))
      with (le (g acc) (g (add acc x))
            && nondecreasing (g (add acc x) :: map g (runningSums (add acc x) rest))).
    rewrite (Hg _ _ Hacc Hle). cbn [andb]. now apply IH.
Qed.

Section Series.

Variable dateLabel : JsDate -> string.

Lemma investedSeries_scan (data : list RawTransaction.t) (acc : Totals.t) :
  investedSeries (snd (chartScan dateLabel acc data)) =
  map toFixed2
      (runningSums (Totals.cumulativeInvested acc)
                   (map RawTransaction.invested data)).
Proof.
  revert acc. induction data as [|point rest IH]; intro acc; [reflexivity|].
  cbn [chartScan]. unfold chartStep.
  match goal with
  | |- context [chartScan dateLabel ?a rest] =>
      specialize (IH a); destruct (chartScan dateLabel a rest) as [acc2 ps]
  end.
  cbn [snd] in *. unfold investedSeries in *. cbn [map runningSums].
  rewrite IH. reflexivity.
Qed.

Lemma unitsSeries_scan (data : list RawTransaction.t) (acc : Totals.t) :
  unitsSeries (snd (chartScan dateLabel acc data)) =
  runningSums (Totals.cumulativeAmount acc)
              (map RawTransaction.assetPurchased data).
Proof.
  revert acc. induction data as [|point rest IH]; intro acc; [reflexivity|].
  cbn [chartScan]. unfold chartStep.
  match goal with
  | |- context [chartScan dateLabel ?a rest] =>
      specialize (IH a); destruct (chartScan dateLabel a rest) as [acc2 ps]
  end.
  cbn [snd] in *. unfold unitsSeries in *. cbn [map runningSums].
  rewrite IH. reflexivity.
Qed.

End Series.

Lemma kept_rows_positive (data : list RawTransaction.t) :
  forallb keepRow data = true ->
  Forall positive_num (map RawTransaction.invested data).
Proof.
  intro H. rewrite forallb_forall in H. apply Forall_map, Forall_forall.
  intros d Hd. apply keepRow_positive. now apply H.
Qed.

(** C5, as amended.  For every record set that passes the row filter, the
    cumulative-invested series ([assetValue]) never decreases from one chart
    point to the next; the cumulative-units series ([cumulativeAmount]) never
    decreases when, in addition, no row has negative units. *)
Theorem cumulative_series_nondecreasing
    (dateLabel : JsDate -> string) (data : list RawTransaction.t) :
  forallb keepRow data = true ->
  let chart := DcaBundle.chartData (processData dateLabel data) in
  nondecreasing (investedSeries chart) = true /\
  (forallb (fun d => le zero (RawTransaction.assetPurchased d)) data = true ->
   nondecreasing (unitsSeries chart) = true).
Proof.
  intros Hkept chart. subst chart. rewrite processData_chart. split.
  - rewrite investedSeries_scan.
    eapply nondecreasing_tail.
    apply (runningSums_nondecreasing toFixed2 toFixed2_mono).
    + apply nonneg_zero.
    + eapply Forall_impl; [|apply kept_rows_positive; exact Hkept].
      apply positive_nonneg.
  - intro Hunits. rewrite unitsSeries_scan.
    rewrite <- (map_id (runningSums _ _)).
    eapply nondecreasing_tail.
    apply (runningSums_nondecreasing (fun x => x)).
    + intros a b _ Hle. exact Hle.
    + apply nonneg_zero.
    + rewrite forallb_forall in Hunits. apply Forall_map, Forall_forall.
      intros d Hd. apply le_zero_nonneg. now apply Hunits.
Qed.

Lemma cumulative_series_nondecreasing_witness :
  forallb keepRow Sample.rows = true /\
  let chart := DcaBundle.chartData (processData Sample.dateLabel Sample.rows) in
  nondecreasing (investedSeries chart) = true /\
  (forallb (fun d => le zero (RawTransaction.assetPurchased d)) Sample.rows = true ->
   nondecreasing (unitsSeries chart) = true).
Proof.
  split.
  - vm_compute. reflexivity.
  - apply (cumulative_series_nondecreasing Sample.dateLabel Sample.rows).
    vm_compute. reflexivity.
Defined.

(** C5 as stated fails: a row with negative units passes the filter, and the
    cumulative-units series then goes from 1 down to 0. *)
Lemma negative_units_series_decreases :
  let r := parseCsv Sample.dateParse Sample.sheetNegativeUnits BTC in
  let chart :=
    DcaBundle.chartData (processData Sample.dateLabel (ParseResult.data r)) in
  ParseResult.error r = None /\
  List.length (ParseResult.data r) = 2%nat /\
  forallb keepRow (ParseResult.data r) = true /\
  map asQ (unitsSeries chart) = [Some (1 # 1)%Q; Some (0 # 1)%Q] /\
  nondecreasing (unitsSeries chart) = false.
Proof.
  vm_compute. repeat split.
Qed.

(* ================================================================== *)
(** ** Summary derivation *)

Lemma div_positive_by_zero (x : num) : positive_num x -> div x zero = PInf.
Proof.
  destruct x as [| | |q]; cbn [positive_num]; intro Hq;
    try contradiction; try reflexivity.
  apply sgn_Gt in Hq. unfold div, zero, ofZ, ofQ.
  change (sgn (Q2Qc (inject_Z 0))) with Eq. cbv iota. now rewrite Hq.
Qed.

Lemma div_Fin_nonzero (c u : Qc) :
  u <> Q2Qc 0 -> div (Fin c) (Fin u) = Fin (c / u)%Qc.
Proof.
  intro Hu. unfold div. destruct (sgn u) eqn:Hs; try reflexivity.
  apply sgn_Eq in Hs. contradiction.
Qed.

(** C4, as amended.  For every non-empty record set that passes the row
    filter there is a summary; its entry price is the JavaScript quotient of
    total invested by total units, and total invested is positive.  The
    filter does not exclude a zero total of units: the entry price is then
    +Infinity. *)
Theorem entry_price_of_filtered_set
    (dateLabel : JsDate -> string) (data : list RawTransaction.t) :
  data <> [] ->
  forallb keepRow data = true ->
  exists sd : SummaryData.t,
    DcaBundle.summaryData (processData dateLabel data) = Some sd /\
    SummaryData.totalCapital sd = totalInvested data /\
    SummaryData.totalAmount sd = totalUnits data /\
    SummaryData.entryPrice sd = div (totalInvested data) (totalUnits data) /\
    positive_num (totalInvested data) /\
    (totalUnits data = zero -> SummaryData.entryPrice sd = PInf).
Proof.
  intros Hne Hkept. destruct data as [|first rest]; [congruence|].
  rewrite (processData_summary dateLabel (first :: rest) first rest eq_refl).
  eexists. split; [reflexivity|]. cbn [SummaryData.totalCapital
    SummaryData.totalAmount SummaryData.entryPrice].
  assert (Hpos : positive_num (totalInvested (first :: rest))).
  { unfold totalInvested, sumNum. apply fold_add_positive.
    - apply nonneg_zero.
    - now apply kept_rows_positive.
    - discriminate. }
  repeat split; auto.
  intros Hz. rewrite Hz. now apply div_positive_by_zero.
Qed.

Lemma entry_price_of_filtered_set_witness :
  Sample.rows <> [] /\
  forallb keepRow Sample.rows = true /\
  exists sd : SummaryData.t,
    DcaBundle.summaryData (processData Sample.dateLabel Sample.rows) = Some sd /\
    SummaryData.totalCapital sd = totalInvested Sample.rows /\
    SummaryData.totalAmount sd = totalUnits Sample.rows /\
    SummaryData.entryPrice sd =
      div (totalInvested Sample.rows) (totalUnits Sample.rows) /\
    positive_num (totalInvested Sample.rows) /\
    (totalUnits Sample.rows = zero -> SummaryData.entryPrice sd = PInf).
Proof.
  split; [discriminate|]. split; [vm_compute; reflexivity|].
  apply (entry_price_of_filtered_set Sample.dateLabel Sample.rows).
  - discriminate.
  - vm_compute. reflexivity.
Defined.

(** C4 as stated fails: a sheet whose only row records zero units passes the
    filter, the record set is not empty, total units is exactly zero and the
    entry price is 100 / 0 = +Infinity. *)
Lemma zero_units_row_reaches_division_by_zero :
  let r := parseCsv Sample.dateParse Sample.sheetZeroUnits BTC in
  let bundle :=
    bundleFor Sample.dateParse Sample.dateLabel Sample.sheetZeroUnits BTC in
  ParseResult.error r = None /\
  List.length (ParseResult.data r) = 1%nat /\
  forallb keepRow (ParseResult.data r) = true /\
  exists sd : SummaryData.t,
    DcaBundle.summaryData bundle = Some sd /\
    asQ (SummaryData.totalCapital sd) = Some (100 # 1)%Q /\
    asQ (SummaryData.totalAmount sd) = Some (0 # 1)%Q /\
    SummaryData.entryPrice sd = PInf /\
    isFinite (SummaryData.entryPrice sd) = false.
Proof.
  vm_compute. repeat split. eexists. repeat split.
Qed.

(* ================================================================== *)
(** ** The displayed curve *)

Lemma processData_error (dateLabel : JsDate -> string)
    (data : list RawTransaction.t) :
  DcaBundle.error (processData dateLabel data) = None.
Proof.
  destruct data as [|first rest]; [reflexivity|]. unfold processData.
  destruct (chartScan dateLabel Totals.init (first :: rest)); reflexivity.
Qed.

Lemma processData_chart_length (dateLabel : JsDate -> string)
    (data : list RawTransaction.t) :
  List.length (DcaBundle.chartData (processData dateLabel data))
  = List.length data.
Proof. rewrite processData_chart. apply chartScan_length. Qed.

Lemma nth_error_sliceLast {A : Type} (n i : nat) (l : list A) :
  nth_error (App.sliceLast n l) i = nth_error l ((List.length l - n) + i).
Proof. unfold App.sliceLast. apply nth_error_skipn. Qed.

(** The chart points a time range displays, before [displayPoint]. *)
Lemma filteredChartData_nth (bundle : DcaBundle.t) (range : TimeRange)
    (rate : num) (live : option PriceInfo.t) (i : nat) :
  strTruthy (DcaBundle.error bundle) = false ->
  nth_error (App.filteredChartData (Some bundle) range rate live) i =
  option_map (App.displayPoint live rate)
    (nth_error (DcaBundle.chartData bundle)
       (rangeOffset range (List.length (DcaBundle.chartData bundle)) + i)).
Proof.
  intro Herr. unfold App.filteredChartData. rewrite Herr.
  rewrite nth_error_map. destruct range; cbn [rangeOffset];
    rewrite ?nth_error_sliceLast; reflexivity.
Qed.

(** C3, as amended.  The chart point [processData] derives for row [k] is
    valued at that row's own price.  The displayed point for it keeps that
    value, scaled by the conversion rate, when no live price is available or
    when the cumulative units at that row is zero or NaN; when a live price is
    available, the displayed value of every point, the past ones included, is
    its cumulative units times the live unit price. *)
Theorem displayed_point_valuation
    (dateLabel : JsDate -> string) (data : list RawTransaction.t)
    (range : TimeRange) (rate : num) (live : option PriceInfo.t)
    (i : nat) (row : RawTransaction.t) :
  let bundle := processData dateLabel data in
  let k := (rangeOffset range (List.length data) + i)%nat in
  nth_error data k = Some row ->
  let units := totalUnits (rowsUpTo k data) in
  let own := toFixed2 (mul units (RawTransaction.assetPrice row)) in
  exists derived shown : ChartDataPoint.t,
    nth_error (DcaBundle.chartData bundle) k = Some derived /\
    ChartDataPoint.portValue derived = own /\
    nth_error (App.filteredChartData (Some bundle) range rate live) i
      = Some shown /\
    ChartDataPoint.portValue shown =
      match live with
      | Some lp =>
          if truthy units then mul units (PriceInfo.price lp) else mul own rate
      | None => mul own rate
      end.
Proof.
  intros bundle k Hrow units own. subst bundle.
  pose proof (chartScan_nth dateLabel data Totals.init k row Hrow) as Hpt.
  rewrite <- processData_chart in Hpt.
  do 2 eexists. split; [exact Hpt|]. split; [reflexivity|]. split.
  - rewrite filteredChartData_nth.
    + rewrite processData_chart_length. fold k. rewrite Hpt. reflexivity.
    + now rewrite processData_error.
  - cbn. fold units. destruct live as [lp|]; reflexivity.
Qed.

Lemma displayed_point_valuation_witness :
  let data := Sample.rows in
  let live := Some (Sample.livePrice 70000) in
  let bundle := processData Sample.dateLabel data in
  let k := (rangeOffset W (List.length data) + 0)%nat in
  let row := Sample.row0 in
  nth_error data k = Some row /\
  let units := totalUnits (rowsUpTo k data) in
  let own := toFixed2 (mul units (RawTransaction.assetPrice row)) in
  exists derived shown : ChartDataPoint.t,
    nth_error (DcaBundle.chartData bundle) k = Some derived /\
    ChartDataPoint.portValue derived = own /\
    nth_error (App.filteredChartData (Some bundle) W one live) 0
      = Some shown /\
    ChartDataPoint.portValue shown =
      match live with
      | Some lp =>
          if truthy units then mul units (PriceInfo.price lp) else mul own one
      | None => mul own one
      end.
Proof.
  split.
  - reflexivity.
  - apply (displayed_point_valuation Sample.dateLabel Sample.rows W one
             (Some (Sample.livePrice 70000)) 0). reflexivity.
Defined.

(** C3 as stated fails: after the sample sheet is loaded with BTC at 70000
    THB, the first (past) point is displayed at 0.002 x 70000 = 140; one
    price refresh to 80000 THB later it is displayed at 160.  The value at
    its own recorded price, 50000 THB, is 100. *)
Lemma past_point_follows_live_price :
  let s1 :=
    App.run [App.InitialLoad Sample.now
               (App.promiseAll true Sample.sheetFetch (Sample.pricesFetch 70000))] in
  let s2 := App.step s1 (App.Tick Sample.now (Sample.pricesFetch 80000)) in
  let shown s := map asQ (map ChartDataPoint.portValue (App.chartOf s)) in
  map asQ (map ChartDataPoint.portValue
             (DcaBundle.chartData (processData Sample.dateLabel Sample.rows)))
    = [Some (100 # 1)%Q; Some (1101 # 5)%Q] /\
  shown s1 = [Some (140 # 1)%Q; Some (2569 # 10)%Q] /\
  shown s2 = [Some (160 # 1)%Q; Some (1468 # 5)%Q].
Proof.
  vm_compute. repeat split.
Qed.

(* ================================================================== *)
(** ** Live blending *)

Lemma perGram_price (lp : PriceInfo.t) (asset : AssetType) :
  exists per : PriceInfo.t,
    App.livePricePerGram (Some lp) asset = Some per /\
    PriceInfo.price per =
      match asset with
      | GOLD => div (PriceInfo.price lp) (dec 1471 100)
      | BTC => PriceInfo.price lp
      end.
Proof.
  destruct asset; eexists; split; reflexivity.
Qed.

(** C6.  When a live price is available for the selected asset and currency,
    the summary's portfolio value is total units x the live unit price, and
    its profit percentage is (that value - total capital) / total capital x
    100, total capital being the summary's one (in the display currency);
    for GOLD the live unit price is the live price divided by 14.71. *)
Theorem live_summary_uses_live_price
    (s : App.State) (bundle : DcaBundle.t) (sd : SummaryData.t)
    (lp : PriceInfo.t) :
  App.assetDataOf s = Some bundle ->
  DcaBundle.summaryData bundle = Some sd ->
  App.livePriceOf s = Some lp ->
  let unitPrice :=
    match App.selectedAsset s with
    | GOLD => div (PriceInfo.price lp) (dec 1471 100)
    | BTC => PriceInfo.price lp
    end in
  exists ls : SummaryData.t,
    App.summaryOf s = Some ls /\
    SummaryData.totalAmount ls = SummaryData.totalAmount sd /\
    SummaryData.portValue ls = mul (SummaryData.totalAmount sd) unitPrice /\
    SummaryData.totalCapital ls =
      mul (SummaryData.totalCapital sd) (App.rateOf s) /\
    SummaryData.profitPercentage ls =
      mul (div (sub (SummaryData.portValue ls) (SummaryData.totalCapital ls))
               (SummaryData.totalCapital ls))
          hundred.
Proof.
  intros Hdata Hsum Hlive unitPrice. subst unitPrice.
  unfold App.summaryOf, App.perGramOf. rewrite Hdata, Hlive.
  destruct (perGram_price lp (App.selectedAsset s)) as (per & -> & Hper).
  unfold App.liveSummary. rewrite Hsum. eexists. split; [reflexivity|].
  cbn. rewrite Hper. repeat split.
Qed.

Lemma live_summary_uses_live_price_witness :
  let s := Sample.goldWithPrice in
  let lp := Sample.livePrice 29420 in
  App.assetDataOf s = Some (processData Sample.dateLabel Sample.rows) /\
  App.livePriceOf s = Some lp /\
  exists sd ls : SummaryData.t,
    DcaBundle.summaryData (processData Sample.dateLabel Sample.rows) = Some sd /\
    App.summaryOf s = Some ls /\
    SummaryData.totalAmount ls = SummaryData.totalAmount sd /\
    SummaryData.portValue ls =
      mul (SummaryData.totalAmount sd) (div (PriceInfo.price lp) (dec 1471 100)) /\
    SummaryData.totalCapital ls =
      mul (SummaryData.totalCapital sd) (App.rateOf s) /\
    SummaryData.profitPercentage ls =
      mul (div (sub (SummaryData.portValue ls) (SummaryData.totalCapital ls))
               (SummaryData.totalCapital ls))
          hundred.
Proof.
  split; [reflexivity|]. split; [reflexivity|].
  destruct (DcaBundle.summaryData (processData Sample.dateLabel Sample.rows))
    as [sd|] eqn:Hsd; [|discriminate Hsd].
  exists sd.
  destruct (live_summary_uses_live_price Sample.goldWithPrice
              (processData Sample.dateLabel Sample.rows) sd
              (Sample.livePrice 29420) eq_refl Hsd eq_refl) as (ls & H).
  exists ls. split; [reflexivity|]. exact H.
Defined.

Lemma last_of_nth_error {A : Type} (l : list A) (d r : A) :
  nth_error l (List.length l - 1) = Some r -> last l d = r.
Proof.
  induction l as [|x rest IH]; intro Hn; [discriminate Hn|].
  destruct rest as [|y rest'].
  - cbn in Hn. now injection Hn.
  - change (last (x :: y :: rest') d) with (last (y :: rest') d).
    apply IH. cbn [List.length] in *.
    replace (S (S (List.length rest')) - 1)%nat
      with (S (S (List.length rest') - 1)) in Hn by lia.
    exact Hn.
Qed.

(** C9.  The code misses what the claim describes.  [liveSummary] does carry
    the branch of the claim: without a live price the summary of a non-empty
    record set has portfolio value total units x the last row's recorded
    price (scaled by the rate) and the historically derived profit
    percentage.  But the initial load awaits the sheet and the price batch
    jointly: with the sheet fetched and parsed (a BTC summary at hand) and
    the four price requests rejected, nothing is stored and no summary is
    produced, for every sheet and every rejection.  The price tick, by
    contrast, leaves the stored data and the summary alone when its batch is
    rejected. *)
Theorem rejected_price_batch_discards_the_sheet :
  (let s :=
     App.run [App.InitialLoad Sample.now
                (App.promiseAll false Sample.sheetFetch Sample.pricesFailed)] in
   Sample.hasBtcSummary Sample.sheetFetch = true /\
   Sample.pricesFailed = Throw "Could not fetch live prices." /\
   App.allDcaData s = None /\
   App.livePriceOf s = None /\
   App.summaryOf s = None /\
   App.chartOf s = [] /\
   App.error s = Some "Could not fetch live prices.") /\
  (forall (now : JsDate) (leftFirst : bool) (d : AllDca.t) (msg : string),
     let s :=
       App.initialLoad now (App.promiseAll leftFirst (Ok d) (Throw msg))
         App.initial in
     App.allDcaData s = None /\
     App.summaryOf s = None /\
     App.chartOf s = [] /\
     App.error s = Some msg) /\
  (forall (dateLabel : JsDate -> string) (data : list RawTransaction.t)
          (lastRow : RawTransaction.t) (rate : num),
     nth_error data (List.length data - 1) = Some lastRow ->
     let historical :=
       mul (totalUnits data) (RawTransaction.assetPrice lastRow) in
     exists ls : SummaryData.t,
       App.liveSummary (Some (processData dateLabel data)) None rate = Some ls /\
       SummaryData.portValue ls = mul historical rate /\
       SummaryData.profitPercentage ls =
         mul (div (sub historical (totalInvested data)) (totalInvested data))
             hundred) /\
  (forall (now : JsDate) (msg : string) (s : App.State),
     let s' := App.tick now (Throw msg) s in
     App.allDcaData s' = App.allDcaData s /\
     App.summaryOf s' = App.summaryOf s /\
     App.chartOf s' = App.chartOf s).
Proof.
  split; [vm_compute; repeat split|].
  split; [intros now leftFirst d msg; cbn; repeat split|].
  split.
  - intros dateLabel data lastRow rate Hlast historical. subst historical.
    destruct data as [|first rest]; [discriminate Hlast|].
    pose proof (last_of_nth_error _ first lastRow Hlast) as Hl.
    unfold App.liveSummary.
    rewrite (processData_summary dateLabel (first :: rest) first rest eq_refl).
    rewrite Hl. eexists. split; [reflexivity|]. cbn. split; reflexivity.
  - intros now msg s. cbn. repeat split.
Qed.

(* ================================================================== *)
(** ** Currency conversion *)





(* ================================================================== *)
(** ** The component's states *)

(** The rate and the prices are stored by the same updates, and the sheet
    data is only stored together with them. *)
Lemma rate_and_prices_together (s : App.State) :
  App.reachable s ->
  (App.thbUsdRate s = None <-> App.livePrices s = None) /\
  (App.thbUsdRate s = None -> App.allDcaData s = None).
Proof.
  induction 1 as [|s e Hreach [IHiff IHdata]].
  - cbn. tauto.
  - destruct e as [now settled|now settled|now settled|a|c|r];
      cbn [App.step].
    + unfold App.initialLoad. destruct settled as [[dca prices]|msg]; cbn;
        [split; [split|]; discriminate | tauto].
    + unfold App.handleRefresh. destruct (App.isRefreshing s); [tauto|].
      destruct settled as [[dca prices]|msg]; cbn;
        [split; [split|]; discriminate | tauto].
    + unfold App.tick. destruct settled as [prices|msg]; cbn;
        [split; [split|]; discriminate | tauto].
    + cbn. tauto.
    + cbn. tauto.
    + cbn. tauto.
Qed.

(** X26.  Nothing is displayed without a stored rate.  In every state the
    component reaches, whatever the events, a null [thbUsdRate] means that
    no live price and no sheet data are stored either: there is no summary,
    no chart point and no transaction table, for every selection. *)
Theorem nothing_displayed_without_a_rate (s : App.State) :
  App.reachable s ->
  App.thbUsdRate s = None ->
  App.livePrices s = None /\
  App.allDcaData s = None /\
  App.summaryOf s = None /\
  App.chartOf s = [] /\
  App.rowsOf s = None.
Proof.
  intros Hreach Hrate.
  destruct (rate_and_prices_together s Hreach) as [Hiff Hdata].
  pose proof (Hdata Hrate) as Hnone.
  split; [now apply Hiff|]. split; [exact Hnone|].
  unfold App.summaryOf, App.chartOf, App.rowsOf, App.assetDataOf.
  rewrite Hnone. repeat split.
Qed.

Lemma nothing_displayed_without_a_rate_witness :
  let s :=
    App.step App.initial
      (App.InitialLoad Sample.now
         (App.promiseAll false Sample.sheetFetch Sample.pricesFailed)) in
  App.reachable s /\
  App.thbUsdRate s = None /\
  App.livePrices s = None /\
  App.allDcaData s = None /\
  App.summaryOf s = None /\
  App.chartOf s = [] /\
  App.rowsOf s = None.
Proof.
  assert (Hreach : App.reachable
            (App.step App.initial
               (App.InitialLoad Sample.now
                  (App.promiseAll false Sample.sheetFetch
                     Sample.pricesFailed)))).
  { apply App.reach_step. apply App.reach_initial. }
  split; [exact Hreach|]. split; [reflexivity|].
  apply (nothing_displayed_without_a_rate _ Hreach). reflexivity.
Defined.

(* ================================================================== *)
(** ** Further properties of the transaction parser *)

Lemma includesMinusOne_false_iff (a b c d : Z) :
  includesMinusOne [a; b; c; d] = false <->
  a <> -1 /\ b <> -1 /\ c <> -1 /\ d <> -1.
Proof.
  rewrite <- not_true_iff_false, includesMinusOne_iff. lia.
Qed.

Lemma indexOf_present_iff (header : list string) (x : string) :
  indexOf header x <> -1 <-> In x header.
Proof.
  rewrite indexOf_absent_iff. split.
  - intro H. destruct (in_dec string_dec x header); tauto.
  - tauto.
Qed.

(** X1.  [parseCsv] reports no error exactly when the trimmed text has at
    least two lines and each of the asset's four column names is a header
    cell; whenever it reports an error, it returns no row. *)
Theorem parseCsv_error_iff
    (dateParse : string -> JsDate) (csvText : string) (asset : AssetType) :
  (ParseResult.error (parseCsv dateParse csvText asset) = None <->
   (2 <= lineCount csvText)%nat /\
   forall name : string,
     In name (Columns.values (COLUMN_MAP asset)) -> In name (headerOf csvText)) /\
  (ParseResult.error (parseCsv dateParse csvText asset) <> None ->
   ParseResult.data (parseCsv dateParse csvText asset) = []).
Proof.
  unfold parseCsv. fold (lineCount csvText). fold (headerOf csvText).
  destruct (lineCount csvText <? 2)%nat eqn:Hlen.
  - apply Nat.ltb_lt in Hlen. cbn. split; [|reflexivity].
    split; [discriminate | intros [H _]; lia].
  - apply Nat.ltb_ge in Hlen.
    match goal with
    | |- context [includesMinusOne ?l] => destruct (includesMinusOne l) eqn:Hinc
    end; cbn.
    + split; [|reflexivity]. split; [discriminate|]. intros [_ Hall].
      exfalso. apply includesMinusOne_iff in Hinc.
      rewrite !indexOf_absent_iff in Hinc.
      unfold Columns.values in Hall. cbn [In] in Hall.
      destruct Hinc as [H|[H|[H|H]]]; apply H; apply Hall; auto.
    + split; [|congruence]. split; [|reflexivity]. intros _.
      split; [exact Hlen|]. apply includesMinusOne_false_iff in Hinc.
      rewrite !indexOf_present_iff in Hinc.
      intros name Hin. unfold Columns.values in Hin. cbn [In] in Hin.
      intuition (subst; assumption).
Qed.

(** X2.  Every row [parseCsv] returns has three numeric fields that are not
    NaN and a positive invested amount, and there are never more rows than
    lines after the header. *)
Theorem parseCsv_rows_are_valid
    (dateParse : string -> JsDate) (csvText : string) (asset : AssetType) :
  Forall (fun row =>
            isNaN (RawTransaction.invested row) = false /\
            isNaN (RawTransaction.assetPrice row) = false /\
            isNaN (RawTransaction.assetPurchased row) = false /\
            positive_num (RawTransaction.invested row))
         (ParseResult.data (parseCsv dateParse csvText asset)) /\
  (List.length (ParseResult.data (parseCsv dateParse csvText asset))
   <= lineCount csvText - 1)%nat.
Proof.
  destruct (ParseResult.error (parseCsv dateParse csvText asset)) as [msg|] eqn:He.
  - destruct (parseCsv_error_iff dateParse csvText asset) as [_ Hempty].
    rewrite Hempty by (rewrite He; discriminate).
    split; [constructor | cbn; lia].
  - destruct (parseCsv_rows dateParse csvText asset He) as (di & ii & pi & ui & ->).
    split.
    + apply Forall_forall. intros row Hin. apply filter_In in Hin.
      destruct Hin as [_ Hkeep].
      pose proof (keepRow_positive row Hkeep).
      apply keepRow_spec in Hkeep. tauto.
    + eapply Nat.le_trans; [apply filter_length_le|].
      rewrite length_map. unfold lineCount.
      destruct (splitLines (trim csvText)); cbn; lia.
Qed.

(** X3.  A column name that occurs among the header cells is found at its
    first occurrence: the cell at the returned index is the name, and no
    earlier cell is. *)
Theorem indexOf_first_occurrence (header : list string) (x : string) :
  In x header ->
  0 <= indexOf header x /\
  at_ header (indexOf header x) = Some x /\
  forall j : Z, 0 <= j < indexOf header x -> at_ header j <> Some x.
Proof.
  unfold indexOf.
  assert (Hgen : forall (l : list string) (i : Z),
            In x l -> 0 <= i ->
            i <= indexOfFrom i x l /\
            nth_error l (Z.to_nat (indexOfFrom i x l - i)) = Some x /\
            forall j, 0 <= j < indexOfFrom i x l - i ->
                      nth_error l (Z.to_nat j) <> Some x).
  { induction l as [|y rest IH]; intros i Hin Hi; [destruct Hin|].
    cbn [indexOfFrom]. destruct (String.eqb_spec y x) as [->|Hne].
    - rewrite Z.sub_diag. split; [lia|]. split; [reflexivity|].
      intros j Hj. lia.
    - destruct Hin as [->|Hin]; [congruence|].
      destruct (IH (i + 1) Hin ltac:(lia)) as (Hle & Hnth & Hfirst).
      split; [lia|]. split.
      + replace (Z.to_nat (indexOfFrom (i + 1) x rest - i))
          with (S (Z.to_nat (indexOfFrom (i + 1) x rest - (i + 1)))) by lia.
        exact Hnth.
      + intros j Hj. destruct (Z.eq_dec j 0) as [->|Hj0].
        * cbn. congruence.
        * replace (Z.to_nat j) with (S (Z.to_nat (j - 1))) by lia.
          cbn [nth_error]. apply Hfirst. lia. }
  intro Hin. destruct (Hgen header 0 Hin ltac:(lia)) as (Hle & Hnth & Hfirst).
  rewrite Z.sub_0_r in *. split; [exact Hle|]. split.
  - unfold at_. destruct (indexOfFrom 0 x header <? 0) eqn:Hneg; [lia|exact Hnth].
  - intros j Hj. unfold at_. destruct (j <? 0) eqn:Hneg; [lia|].
    apply Hfirst. exact Hj.
Qed.

Lemma indexOf_first_occurrence_witness :
  let header := headerOf Sample.sheetMissingDateCell in
  In "Date" header /\
  0 <= indexOf header "Date" /\
  at_ header (indexOf header "Date") = Some "Date" /\
  forall j : Z, 0 <= j < indexOf header "Date" -> at_ header j <> Some "Date".
Proof.
  assert (Hin : In "Date" (headerOf Sample.sheetMissingDateCell)).
  { vm_compute. tauto. }
  split; [exact Hin|].
  apply (indexOf_first_occurrence (headerOf Sample.sheetMissingDateCell) "Date" Hin).
Defined.

(* ================================================================== *)
(** ** Further properties of the bundles *)

Lemma noRowsError_truthy (asset : AssetType) :
  strTruthy (Some (noRowsError asset)) = true.
Proof. destruct asset; reflexivity. Qed.

Lemma processData_rawData (dateLabel : JsDate -> string)
    (data : list RawTransaction.t) :
  DcaBundle.rawData (processData dateLabel data) = data.
Proof.
  destruct data as [|first rest]; [reflexivity|]. unfold processData.
  destruct (chartScan dateLabel Totals.init (first :: rest)); reflexivity.
Qed.

Lemma parseCsv_data_kept (dateParse : string -> JsDate) (csvText : string)
    (asset : AssetType) :
  forallb keepRow (ParseResult.data (parseCsv dateParse csvText asset)) = true.
Proof.
  apply forallb_forall. intros row Hin.
  destruct (ParseResult.error (parseCsv dateParse csvText asset)) as [msg|] eqn:He.
  - unfold parseCsv in *.
    destruct (List.length (splitLines (trim csvText)) <? 2)%nat; [destruct Hin|].
    match type of Hin with
    | context [includesMinusOne ?l] => destruct (includesMinusOne l)
    end; [destruct Hin | discriminate He].
  - destruct (parseCsv_rows dateParse csvText asset He) as (di & ii & pi & ui & Hd).
    rewrite Hd in Hin. apply filter_In in Hin. tauto.
Qed.

(** The two shapes of a bundle built by the loop of [fetchAllDcaData]. *)
Lemma bundleFor_cases (dateParse : string -> JsDate)
    (dateLabel : JsDate -> string) (csvText : string) (asset : AssetType) :
  let bundle := bundleFor dateParse dateLabel csvText asset in
  (strTruthy (DcaBundle.error bundle) = true /\
   DcaBundle.chartData bundle = [] /\
   DcaBundle.rawData bundle = [] /\
   DcaBundle.summaryData bundle = None) \/
  (DcaBundle.error bundle = None /\
   DcaBundle.rawData bundle <> [] /\
   forallb keepRow (DcaBundle.rawData bundle) = true /\
   List.length (DcaBundle.chartData bundle)
     = List.length (DcaBundle.rawData bundle) /\
   DcaBundle.summaryData bundle <> None).
Proof.
  intro bundle. subst bundle. unfold bundleFor.
  destruct (strTruthy (ParseResult.error (parseCsv dateParse csvText asset)))
    eqn:Herr.
  - left. cbn. auto.
  - pose proof (parseCsv_data_kept dateParse csvText asset) as Hkept.
    destruct (ParseResult.data (parseCsv dateParse csvText asset))
      as [|first rest] eqn:Hdata.
    + left. cbn [List.length Nat.eqb DcaBundle.error DcaBundle.chartData
                 DcaBundle.rawData DcaBundle.summaryData].
      rewrite noRowsError_truthy. auto.
    + right. cbn [List.length Nat.eqb].
      rewrite processData_error, processData_rawData, processData_chart_length.
      rewrite (processData_summary dateLabel (first :: rest) first rest eq_refl).
      repeat split; try discriminate. exact Hkept.
Qed.

(** X4.  A bundle built for an asset is either an error bundle or a complete
    one, and nothing in between.  An error bundle carries one of three
    messages (empty sheet, missing columns, no valid row) and has no chart
    point, no raw transaction and no summary.  A complete bundle has no
    error; its raw transactions are the rows the parser returned, at least
    one, each passing the row filter; it has one chart point per raw
    transaction and a summary. *)
Theorem bundle_is_empty_or_complete (dateParse : string -> JsDate)
    (dateLabel : JsDate -> string) (csvText : string) (asset : AssetType) :
  let bundle := bundleFor dateParse dateLabel csvText asset in
  ((DcaBundle.error bundle = Some emptyCsvError \/
    DcaBundle.error bundle = Some (missingColumnsError asset) \/
    DcaBundle.error bundle = Some (noRowsError asset)) /\
   strTruthy (DcaBundle.error bundle) = true /\
   DcaBundle.chartData bundle = [] /\
   DcaBundle.rawData bundle = [] /\
   DcaBundle.summaryData bundle = None) \/
  (DcaBundle.error bundle = None /\
   DcaBundle.rawData bundle
     = ParseResult.data (parseCsv dateParse csvText asset) /\
   DcaBundle.rawData bundle <> [] /\
   forallb keepRow (DcaBundle.rawData bundle) = true /\
   List.length (DcaBundle.chartData bundle)
     = List.length (DcaBundle.rawData bundle) /\
   DcaBundle.summaryData bundle <> None).
Proof.
  intro bundle. subst bundle. unfold bundleFor.
  pose proof (parseCsv_data_kept dateParse csvText asset) as Hkept.
  assert (Hmsg : ParseResult.error (parseCsv dateParse csvText asset) = None \/
                 ParseResult.error (parseCsv dateParse csvText asset)
                   = Some emptyCsvError \/
                 ParseResult.error (parseCsv dateParse csvText asset)
                   = Some (missingColumnsError asset)).
  { unfold parseCsv.
    destruct (List.length (splitLines (trim csvText)) <? 2)%nat; [now right; left|].
    match goal with
    | |- context [includesMinusOne ?l] => destruct (includesMinusOne l)
    end; [now right; right | now left]. }
  destruct Hmsg as [Hnone|[Hempty|Hmissing]].
  - rewrite Hnone. cbn [strTruthy].
    destruct (ParseResult.data (parseCsv dateParse csvText asset))
      as [|first rest] eqn:Hdata.
    + left. cbn [List.length Nat.eqb DcaBundle.error DcaBundle.chartData
                 DcaBundle.rawData DcaBundle.summaryData].
      rewrite noRowsError_truthy. auto 10.
    + right. cbn [List.length Nat.eqb].
      rewrite processData_error, processData_rawData, processData_chart_length.
      rewrite (processData_summary dateLabel (first :: rest) first rest eq_refl).
      repeat split; try discriminate. exact Hkept.
  - left. rewrite Hempty.
    cbn [DcaBundle.error DcaBundle.chartData DcaBundle.rawData
         DcaBundle.summaryData].
    replace (strTruthy (Some emptyCsvError)) with true by reflexivity.
    cbn [DcaBundle.error DcaBundle.chartData DcaBundle.rawData
         DcaBundle.summaryData]. auto 10.
  - left. rewrite Hmissing. rewrite missingColumnsError_truthy.
    cbn [DcaBundle.error DcaBundle.chartData DcaBundle.rawData
         DcaBundle.summaryData].
    rewrite missingColumnsError_truthy. auto 10.
Qed.

Lemma sliceLast_length {A : Type} (n : nat) (l : list A) :
  List.length (App.sliceLast n l) = Nat.min n (List.length l).
Proof. unfold App.sliceLast. rewrite length_skipn. lia. Qed.

Lemma filteredChartData_length (bundle : DcaBundle.t) (range : TimeRange)
    (rate : num) (live : option PriceInfo.t) :
  strTruthy (DcaBundle.error bundle) = false ->
  List.length (App.filteredChartData (Some bundle) range rate live) =
  match range with
  | W => Nat.min 7 (List.length (DcaBundle.chartData bundle))
  | M => Nat.min 30 (List.length (DcaBundle.chartData bundle))
  | Y => List.length (DcaBundle.chartData bundle)
  end.
Proof.
  intro Herr. unfold App.filteredChartData. rewrite Herr, length_map.
  destruct range; rewrite ?sliceLast_length; reflexivity.
Qed.

(** X5.  For a bundle built by the service, the three panels stand or fall
    together, whatever the time range, the rate and the live price: the
    summary exists, the transaction table is rendered and the displayed chart
    is non-empty exactly when the bundle carries no error. *)
Theorem panels_appear_together (dateParse : string -> JsDate)
    (dateLabel : JsDate -> string) (csvText : string) (asset : AssetType)
    (range : TimeRange) (rate : num) (live : option PriceInfo.t) :
  let bundle := bundleFor dateParse dateLabel csvText asset in
  (App.liveSummary (Some bundle) live rate <> None <->
   strTruthy (DcaBundle.error bundle) = false) /\
  (App.transactionRows (Some bundle) rate <> None <->
   strTruthy (DcaBundle.error bundle) = false) /\
  (App.filteredChartData (Some bundle) range rate live <> [] <->
   strTruthy (DcaBundle.error bundle) = false).
Proof.
  intro bundle.
  pose proof (bundleFor_cases dateParse dateLabel csvText asset) as Hcases.
  cbv zeta in Hcases. fold bundle in Hcases.
  destruct Hcases
    as [(Herr & Hchart & Hraw & Hsum)|(Herr & Hraw & _ & Hlen & Hsum)].
  - split; [|split].
    + unfold App.liveSummary. rewrite Hsum, Herr.
      split; [congruence | discriminate].
    + unfold App.transactionRows. rewrite Herr. cbn.
      split; [congruence | discriminate].
    + unfold App.filteredChartData. rewrite Herr.
      split; [congruence | discriminate].
  - assert (Hf : strTruthy (DcaBundle.error bundle) = false) by now rewrite Herr.
    split; [|split].
    + unfold App.liveSummary.
      destruct (DcaBundle.summaryData bundle) as [sd|]; [|congruence].
      split; [auto|]. intros _. destruct live; discriminate.
    + unfold App.transactionRows. rewrite Hf. cbn [negb andb].
      destruct (DcaBundle.rawData bundle) as [|tx rest]; [congruence|].
      cbn. split; [auto | discriminate].
    + split; [auto|]. intros _ Hnil.
      apply (f_equal (@List.length _)) in Hnil.
      rewrite (filteredChartData_length bundle range rate live Hf) in Hnil.
      rewrite Hlen in Hnil.
      destruct (DcaBundle.rawData bundle) as [|tx rest]; [congruence|].
      destruct range; cbn in Hnil; lia.
Qed.

(* ================================================================== *)
(** ** Further properties of the aggregator *)

Lemma chartScan_app (dateLabel : JsDate -> string)
    (data more : list RawTransaction.t) (acc : Totals.t) :
  chartScan dateLabel acc (data ++ more) =
  (fst (chartScan dateLabel (fst (chartScan dateLabel acc data)) more),
   snd (chartScan dateLabel acc data)
   ++ snd (chartScan dateLabel (fst (chartScan dateLabel acc data)) more)).
Proof.
  revert acc. induction data as [|point rest IH]; intro acc.
  - cbn. now destruct (chartScan dateLabel acc more).
  - cbn [app chartScan]. unfold chartStep.
    match goal with
    | |- context [chartScan dateLabel ?a (rest ++ more)] =>
        rewrite (IH a); destruct (chartScan dateLabel a rest) as [acc1 ps]
    end.
    cbn [fst snd].
    destruct (chartScan dateLabel acc1 more) as [acc2 qs]. reflexivity.
Qed.

(** X6.  Rows added after a record set leave its chart points as they were:
    the chart of the longer set starts with the chart of the shorter one. *)
Theorem chart_is_stable_under_append (dateLabel : JsDate -> string)
    (data more : list RawTransaction.t) :
  firstn (List.length data)
         (DcaBundle.chartData (processData dateLabel (data ++ more)))
  = DcaBundle.chartData (processData dateLabel data).
Proof.
  rewrite !processData_chart, chartScan_app. cbn [snd].
  rewrite <- (chartScan_length dateLabel data Totals.init) at 1.
  rewrite firstn_app, Nat.sub_diag, firstn_all. cbn. apply app_nil_r.
Qed.

Lemma nth_error_last_row {A : Type} (l : list A) (d : A) :
  l <> [] -> nth_error l (List.length l - 1) = Some (last l d).
Proof.
  induction l as [|x rest IH]; intro Hne; [congruence|].
  destruct rest as [|y rest']; [reflexivity|].
  change (last (x :: y :: rest') d) with (last (y :: rest') d).
  cbn [List.length] in *.
  replace (S (S (List.length rest')) - 1)%nat
    with (S (S (List.length rest') - 1)) by lia.
  cbn [nth_error]. apply IH. discriminate.
Qed.

(** X7.  The last chart point and the summary of a non-empty record set agree:
    the point's cumulative units is the summary's total amount, its invested
    value is the summary's total capital rounded to 2 decimals, and its value
    is the summary's portfolio value rounded to 2 decimals; the bundle's raw
    data is the record set itself. *)
Theorem chart_end_matches_summary (dateLabel : JsDate -> string)
    (data : list RawTransaction.t) :
  data <> [] ->
  let bundle := processData dateLabel data in
  DcaBundle.rawData bundle = data /\
  exists (pt : ChartDataPoint.t) (sd : SummaryData.t),
    nth_error (DcaBundle.chartData bundle) (List.length data - 1) = Some pt /\
    DcaBundle.summaryData bundle = Some sd /\
    ChartDataPoint.cumulativeAmount pt = Some (SummaryData.totalAmount sd) /\
    ChartDataPoint.assetValue pt = toFixed2 (SummaryData.totalCapital sd) /\
    ChartDataPoint.portValue pt = toFixed2 (SummaryData.portValue sd).
Proof.
  intros Hne bundle. subst bundle. split; [apply processData_rawData|].
  destruct data as [|first rest]; [congruence|].
  set (data := first :: rest) in *.
  assert (Hlast : nth_error data (List.length data - 1) = Some (last data first))
    by (apply nth_error_last_row; discriminate).
  pose proof (chartScan_nth dateLabel data Totals.init _ _ Hlast) as Hpt.
  rewrite <- processData_chart in Hpt.
  replace (S (List.length data - 1)) with (List.length data) in Hpt
    by (subst data; cbn; lia).
  rewrite !firstn_all in Hpt.
  do 2 eexists. split; [exact Hpt|]. split.
  - apply (processData_summary dateLabel data first rest eq_refl).
  - cbn. repeat split.
Qed.

Lemma chart_end_matches_summary_witness :
  Sample.rows <> [] /\
  let bundle := processData Sample.dateLabel Sample.rows in
  DcaBundle.rawData bundle = Sample.rows /\
  exists (pt : ChartDataPoint.t) (sd : SummaryData.t),
    nth_error (DcaBundle.chartData bundle) (List.length Sample.rows - 1)
      = Some pt /\
    DcaBundle.summaryData bundle = Some sd /\
    ChartDataPoint.cumulativeAmount pt = Some (SummaryData.totalAmount sd) /\
    ChartDataPoint.assetValue pt = toFixed2 (SummaryData.totalCapital sd) /\
    ChartDataPoint.portValue pt = toFixed2 (SummaryData.portValue sd).
Proof.
  split; [discriminate|].
  apply (chart_end_matches_summary Sample.dateLabel Sample.rows). discriminate.
Defined.

(* ================================================================== *)
(** ** Canonical rationals *)

Lemma Qcmult_this (a b : Qc) : (this (a * b)%Qc == this a * this b)%Q.
Proof. unfold Qcmult. apply Q2Qc_this. Qed.

Lemma Qcopp_this (a : Qc) : (this (- a)%Qc == - this a)%Q.
Proof. unfold Qcopp. apply Q2Qc_this. Qed.

Lemma Qcinv_this (a : Qc) : (this (/ a)%Qc == / this a)%Q.
Proof. unfold Qcinv. apply Q2Qc_this. Qed.

Lemma Qcdiv_this (a b : Qc) : (this (a / b)%Qc == this a / this b)%Q.
Proof.
  unfold Qcdiv. rewrite Qcmult_this, Qcinv_this. reflexivity.
Qed.

(* ================================================================== *)
(** ** Rounding to two decimals *)










(* ================================================================== *)
(** ** Printing and reading back *)

Lemma string_app_assoc (a b c : string) :
  ((a ++ b) ++ c = a ++ (b ++ c))%string.
Proof. induction a as [|x a IH]; cbn; [reflexivity | now rewrite IH]. Qed.

Lemma string_app_nil_r (a : string) : (a ++ "")%string = a.
Proof. induction a as [|x a IH]; cbn; [reflexivity | now rewrite IH]. Qed.

Lemma string_app_length (a b : string) :
  String.length (a ++ b) = (String.length a + String.length b)%nat.
Proof. induction a as [|x a IH]; cbn; [reflexivity | now rewrite IH]. Qed.

Lemma allDigits_app (a b : string) :
  allDigits (a ++ b) = allDigits a && allDigits b.
Proof.
  induction a as [|x a IH]; cbn; [reflexivity|].
  now rewrite IH, andb_assoc.
Qed.

Lemma digitsValue_app (a b : string) (acc : Z) :
  digitsValue acc (a ++ b) = digitsValue (digitsValue acc a) b.
Proof.
  revert acc. induction a as [|x a IH]; intro acc; cbn; [reflexivity|].
  apply IH.
Qed.

(** Reading a run of digits that is followed by something else. *)
Lemma readDigits_run (s rest : string) (acc : Z) (cnt : nat) :
  allDigits s = true ->
  match rest with
  | String c _ => isDigit c = false
  | EmptyString => True
  end ->
  readDigits acc cnt (s ++ rest)
  = (digitsValue acc s, (cnt + String.length s)%nat, rest).
Proof.
  revert acc cnt. induction s as [|x s IH]; intros acc cnt Hs Hrest.
  - cbn [append digitsValue String.length]. rewrite Nat.add_0_r.
    destruct rest as [|c r]; [reflexivity|].
    cbn [readDigits]. now rewrite Hrest.
  - cbn [allDigits] in Hs. apply andb_true_iff in Hs. destruct Hs as [Hx Hs].
    cbn [append readDigits digitsValue String.length]. rewrite Hx.
    rewrite (IH _ _ Hs Hrest). f_equal. f_equal. lia.
Qed.

Lemma uint_string_digits (d : Decimal.uint) :
  allDigits (NilEmpty.string_of_uint d) = true.
Proof. induction d; cbn; auto. Qed.

Lemma uint_string_value_acc (d : Decimal.uint) (acc : positive) :
  digitsValue (Z.pos acc) (NilEmpty.string_of_uint d)
  = Z.pos (Pos.of_uint_acc d acc).
Proof.
  revert acc. induction d as [|d IH|d IH|d IH|d IH|d IH|d IH|d IH|d IH|d IH|d IH];
    intro acc; cbn [NilEmpty.string_of_uint digitsValue Pos.of_uint_acc];
    [reflexivity|..]; rewrite <- IH; f_equal; vm_compute digitVal; lia.
Qed.

Lemma uint_string_value (d : Decimal.uint) :
  digitsValue 0 (NilEmpty.string_of_uint d) = Z.of_N (Pos.of_uint d).
Proof.
  induction d as [|d IH|d IH|d IH|d IH|d IH|d IH|d IH|d IH|d IH|d IH];
    cbn [NilEmpty.string_of_uint digitsValue Pos.of_uint];
    [reflexivity | exact IH | ..];
    cbn [Z.of_N]; rewrite <- uint_string_value_acc; reflexivity.
Qed.

Lemma digitsOf_uint (n : Z) :
  JsFormat.digitsOf n = NilEmpty.string_of_uint (N.to_uint (Z.to_N n)).
Proof.
  unfold JsFormat.digitsOf, NilZero.string_of_uint.
  destruct (N.to_uint (Z.to_N n)) eqn:Hd; try reflexivity.
  exfalso. destruct (Z.to_N n) as [|p]; cbn in Hd; [discriminate|].
  now apply (Unsigned.to_uint_nonnil p).
Qed.

Lemma digitsOf_digits (n : Z) : allDigits (JsFormat.digitsOf n) = true.
Proof. rewrite digitsOf_uint. apply uint_string_digits. Qed.

Lemma digitsOf_value (n : Z) :
  0 <= n -> digitsValue 0 (JsFormat.digitsOf n) = n.
Proof.
  intro Hn. rewrite digitsOf_uint, uint_string_value.
  change (Pos.of_uint (N.to_uint (Z.to_N n)))
    with (N.of_uint (N.to_uint (Z.to_N n))).
  rewrite DecimalN.Unsigned.of_to. now apply Z2N.id.
Qed.

Lemma digitsOf_nonempty (n : Z) : JsFormat.digitsOf n <> EmptyString.
Proof.
  unfold JsFormat.digitsOf, NilZero.string_of_uint.
  destruct (N.to_uint (Z.to_N n)); discriminate.
Qed.

Lemma zeros_digits (k : nat) : allDigits (JsFormat.zeros k) = true.
Proof. induction k; cbn; auto. Qed.

Lemma zeros_value (k : nat) : digitsValue 0 (JsFormat.zeros k) = 0.
Proof. induction k; cbn; auto. Qed.

Lemma zeros_length (k : nat) : String.length (JsFormat.zeros k) = k.
Proof. induction k; cbn; auto. Qed.

(** Cutting a string at position [n]. *)
Lemma substring_split (s : string) (n : nat) :
  (n <= String.length s)%nat ->
  (substring 0 n s ++ substring n (String.length s - n) s)%string = s /\
  String.length (substring 0 n s) = n.
Proof.
  revert s. induction n as [|n IH]; intros s Hn.
  - rewrite Nat.sub_0_r. destruct s as [|c s]; [split; reflexivity|].
    cbn [substring String.length append].
    assert (Hall : forall t, substring 0 (String.length t) t = t).
    { induction t as [|x t IHt]; [reflexivity|].
      cbn [String.length substring]. now rewrite IHt. }
    change (substring 0 0 (String c s)) with EmptyString.
    cbn [append]. split; [|reflexivity].
    change (String c (substring 0 (String.length s) s) = String c s).
    now rewrite Hall.
  - destruct s as [|c s]; [cbn in Hn; lia|].
    cbn [String.length] in *. destruct (IH s ltac:(lia)) as [Happ Hlen].
    split.
    + cbn [substring append Nat.sub]. now rewrite Happ.
    + cbn [substring String.length]. now rewrite Hlen.
Qed.

Lemma allDigits_split (a b : string) :
  allDigits (a ++ b) = true -> allDigits a = true /\ allDigits b = true.
Proof. rewrite allDigits_app. apply andb_true_iff. Qed.

Lemma digit_not_special (c : ascii) :
  isDigit c = true ->
  isWhiteSpace c = false /\ Ascii.eqb c "-" = false /\
  Ascii.eqb c "+" = false /\ Ascii.eqb c "." = false /\
  Ascii.eqb c "I" = false.
Proof.
  destruct c as [[] [] [] [] [] [] [] []]; intro H;
    try discriminate H; repeat split.
Qed.

Lemma inert_first (rest : string) :
  inertSuffix rest = true ->
  match rest with
  | String c _ =>
      isDigit c = false /\ Ascii.eqb c "." = false /\
      Ascii.eqb c "e" = false /\ Ascii.eqb c "E" = false
  | EmptyString => True
  end.
Proof.
  destruct rest as [|c r]; [trivial|]. cbn [inertSuffix].
  rewrite negb_true_iff, !orb_false_iff. tauto.
Qed.

Lemma inert_exponent (rest : string) :
  inertSuffix rest = true -> readExponent rest = 0.
Proof.
  intro H. apply inert_first in H. destruct rest as [|c r]; [reflexivity|].
  destruct H as (_ & _ & He & HE). cbn [readExponent]. now rewrite He, HE.
Qed.

Lemma ofQ_ext (x y : Q) : (x == y)%Q -> ofQ x = ofQ y.
Proof. intro H. unfold ofQ. f_equal. now apply Q2Qc_eq_iff. Qed.

Lemma neg_ofQ (x : Q) : neg (ofQ x) = ofQ (- x).
Proof.
  unfold ofQ, neg, Qcopp. f_equal. apply Q2Qc_eq_iff.
  now rewrite Q2Qc_this.
Qed.

Lemma pow10_pos (f : nat) : 0 < 10 ^ Z.of_nat f.
Proof. apply Z.pow_pos_nonneg; lia. Qed.

(** A digit string with its point, read back: the integer it spells over
    10^f. *)
Lemma parse_withPoint (f : nat) (m rest : string) :
  allDigits m = true -> m <> EmptyString -> inertSuffix rest = true ->
  exists (c : ascii) (tail : string),
    (JsFormat.withPoint f m ++ rest)%string = String c tail /\
    isDigit c = true /\
    parseUnsigned (String c tail)
    = ofQ (digitsValue 0 m # Z.to_pos (10 ^ Z.of_nat f)).
Proof.
  intros Hm Hne Hrest.
  pose proof (inert_first rest Hrest) as Hfirst.
  pose proof (inert_exponent rest Hrest) as Hexp.
  destruct f as [|f'].
  - cbn [JsFormat.withPoint]. destruct m as [|c m']; [congruence|].
    exists c, (m' ++ rest)%string. split; [reflexivity|].
    pose proof Hm as Hm0. cbn [allDigits] in Hm0.
    apply andb_true_iff in Hm0. destruct Hm0 as [Hc _].
    split; [exact Hc|].
    destruct (digit_not_special c Hc) as (_ & _ & _ & _ & HI).
    unfold parseUnsigned.
    assert (Hpre : String.prefix "Infinity" (String c (m' ++ rest)) = false).
    { cbn [String.prefix]. destruct (ascii_dec "I" c) as [<-|_];
        [discriminate HI | reflexivity]. }
    rewrite Hpre.
    change (String c (m' ++ rest)%string) with ((String c m') ++ rest)%string.
    rewrite (readDigits_run (String c m') rest 0 0 Hm)
      by (destruct rest; tauto).
    cbn [String.length Nat.add].
    destruct rest as [|x r].
    + apply ofQ_ext. unfold scale10. cbn [Z.leb Z.compare].
      unfold Qeq, inject_Z. cbn. lia.
    + destruct Hfirst as (_ & Hdot & _ & _). rewrite Hdot, Hexp.
      apply ofQ_ext. unfold scale10. cbn [Z.leb Z.compare].
      unfold Qeq, inject_Z. cbn. lia.
  - cbn [JsFormat.withPoint]. remember (S f') as f eqn:Hf.
    set (m1 := if (String.length m <=? f)%nat
               then (JsFormat.zeros (f + 1 - String.length m) ++ m)%string
               else m).
    assert (Hm1 : allDigits m1 = true /\ digitsValue 0 m1 = digitsValue 0 m /\
                  (f < String.length m1)%nat).
    { subst m1. destruct (String.length m <=? f)%nat eqn:Hk.
      - apply Nat.leb_le in Hk.
        rewrite allDigits_app, zeros_digits, Hm, digitsValue_app, zeros_value,
                string_app_length, zeros_length.
        repeat split; lia.
      - apply Nat.leb_gt in Hk. repeat split; [exact Hm | lia]. }
    destruct Hm1 as (Hd1 & Hv1 & Hl1).
    set (k := String.length m1) in *.
    destruct (substring_split m1 (k - f) ltac:(subst k; lia)) as [Hsplit Hla].
    fold k in Hsplit. replace (k - (k - f))%nat with f in Hsplit by lia.
    remember (substring 0 (k - f) m1) as a eqn:Hadef.
    remember (substring (k - f) f m1) as b eqn:Hbdef.
    clear Hadef Hbdef.
    assert (Hab : allDigits a = true /\ allDigits b = true)
      by (apply allDigits_split; now rewrite Hsplit).
    destruct Hab as [Ha Hb].
    assert (Hlb : String.length b = f).
    { pose proof (string_app_length a b) as Hl. rewrite Hsplit in Hl.
      fold k in Hl. lia. }
    destruct a as [|c a']; [cbn in Hla; lia|].
    exists c, ((a' ++ "." ++ b) ++ rest)%string. split; [reflexivity|].
    pose proof Ha as Ha0. cbn [allDigits] in Ha0.
    apply andb_true_iff in Ha0. destruct Ha0 as [Hc _].
    split; [exact Hc|].
    destruct (digit_not_special c Hc) as (_ & _ & _ & _ & HI).
    unfold parseUnsigned.
    assert (Hpre : String.prefix "Infinity"
                     (String c ((a' ++ "." ++ b) ++ rest)) = false).
    { cbn [String.prefix]. destruct (ascii_dec "I" c) as [<-|_];
        [discriminate HI | reflexivity]. }
    rewrite Hpre.
    assert (Hshape : String c ((a' ++ "." ++ b) ++ rest)%string
                     = ((String c a') ++ String "." (b ++ rest))%string).
    { cbn [append]. f_equal. rewrite string_app_assoc. reflexivity. }
    rewrite Hshape.
    rewrite (readDigits_run (String c a') (String "." (b ++ rest)) 0 0 Ha)
      by reflexivity.
    cbn [String.length Nat.add].
    change (Ascii.eqb "." ".") with true. cbv iota.
    rewrite (readDigits_run b rest _ 0 Hb) by (destruct rest; tauto).
    cbn [Nat.add]. rewrite Hlb, Hexp.
    rewrite <- digitsValue_app, Hsplit, Hv1.
    apply ofQ_ext. unfold scale10.
    destruct (0 <=? 0 - Z.of_nat f) eqn:Hz; [apply Z.leb_le in Hz; lia|].
    replace (- (0 - Z.of_nat f)) with (Z.of_nat f) by lia. reflexivity.
Qed.

Lemma rounded_magnitude_nonneg (q : Q) (f : nat) :
  0 <= Qfloor (Qabs q * JsFormat.pow10 f + (1 # 2)).
Proof.
  change 0 with (Qfloor 0). apply Qfloor_resp_le.
  pose proof (Qabs_nonneg q) as Ha.
  assert (Hp : (0 <= JsFormat.pow10 f)%Q).
  { unfold JsFormat.pow10. change 0%Q with (inject_Z 0). rewrite <- Zle_Qle.
    pose proof (pow10_pos f). lia. }
  pose proof (Qmult_le_0_compat _ _ Ha Hp). lra.
Qed.

(** What [toFixed] prints, followed by anything that is not part of a
    number, is read back by [parseFloat] as the rounded value. *)
Lemma toFixed_reads_back (host : num -> string) (f : nat) (x : num)
    (rest : string) :
  printable x = true -> inertSuffix rest = true ->
  parseFloat (Some (JsFormat.toFixed host f x ++ rest)%string)
  = match x with
    | Fin q => ofQ (roundTo f (this q))
    | other => other
    end.
Proof.
  intros Hp Hrest.
  destruct x as [| | |q]; try (destruct rest; reflexivity).
  cbn [printable] in Hp. apply negb_true_iff in Hp.
  unfold JsFormat.toFixed. rewrite Hp.
  set (n := Qfloor (Qabs q * JsFormat.pow10 f + (1 # 2))).
  destruct (parse_withPoint f (JsFormat.digitsOf n) rest
              (digitsOf_digits n) (digitsOf_nonempty n) Hrest)
    as (c & tail & Heq & Hc & Hparse).
  rewrite (digitsOf_value n (rounded_magnitude_nonneg q f)) in Hparse.
  destruct (digit_not_special c Hc) as (Hws & Hminus & Hplus & _ & _).
  unfold roundTo. fold n.
  change (this q ?= 0)%Q with (sgn q).
  destruct (sgn q).
  - cbn [append]. rewrite Heq. unfold parseFloat. cbn [trimStart].
    rewrite Hws, Hminus, Hplus. exact Hparse.
  - change (("-" ++ JsFormat.withPoint f (JsFormat.digitsOf n)) ++ rest)%string
      with (String "-" (JsFormat.withPoint f (JsFormat.digitsOf n) ++ rest)).
    rewrite Heq. unfold parseFloat. cbn [trimStart].
    change (isWhiteSpace "-") with false. cbv iota.
    change (Ascii.eqb "-" "-") with true. cbv iota.
    rewrite Hparse. apply neg_ofQ.
  - cbn [append]. rewrite Heq. unfold parseFloat. cbn [trimStart].
    rewrite Hws, Hminus, Hplus. exact Hparse.
Qed.

Lemma toFixed2_roundTo (q : Qc) :
  printable (Fin q) = true -> toFixed2 (Fin q) = ofQ (roundTo 2 (this q)).
Proof.
  intro Hp. cbn [printable] in Hp. apply negb_true_iff in Hp.
  unfold toFixed2. rewrite Hp. unfold roundTo.
  change (this q ?= 0)%Q with (sgn q).
  destruct (sgn q); reflexivity.
Qed.

(** X10.  The expression of the source, [parseFloat(x.toFixed(2))], taken
    through the printed string: for NaN, the infinities and every finite
    number below 10^21 in magnitude, reading back what [toFixed(2)] prints
    gives the rounding [toFixed2] that the chart points are stated with. *)
Theorem parseFloat_of_toFixed2 (host : num -> string) (x : num) :
  printable x = true ->
  parseFloat (Some (JsFormat.toFixed host 2 x)) = toFixed2 x.
Proof.
  intro Hp.
  rewrite <- (string_app_nil_r (JsFormat.toFixed host 2 x)).
  rewrite (toFixed_reads_back host 2 x "" Hp eq_refl).
  destruct x as [| | |q]; try reflexivity.
  symmetry. now apply toFixed2_roundTo.
Qed.

Lemma parseFloat_of_toFixed2_witness :
  let host := fun _ : num => "1e+21" in
  let x := dec (-12345) 1000 in
  printable x = true /\
  JsFormat.toFixed host 2 x = "-12.35" /\
  parseFloat (Some (JsFormat.toFixed host 2 x)) = toFixed2 x.
Proof.
  split; [reflexivity|]. split; [reflexivity|].
  apply (parseFloat_of_toFixed2 (fun _ : num => "1e+21") (dec (-12345) 1000)).
  reflexivity.
Defined.

(** X11.  The percentage label, [value.toFixed(2) + '%'], reads back as the
    value rounded to 2 decimals: the sign, the digits and the point are those
    of the rounded value, and the percent sign is not read. *)
Theorem formatPercentage_reads_back (host : num -> string) (value : num) :
  printable value = true ->
  parseFloat (Some (JsFormat.formatPercentage host value)) = toFixed2 value.
Proof.
  intro Hp. unfold JsFormat.formatPercentage.
  rewrite (toFixed_reads_back host 2 value "%" Hp eq_refl).
  destruct value as [| | |q]; try reflexivity.
  symmetry. now apply toFixed2_roundTo.
Qed.

Lemma formatPercentage_reads_back_witness :
  let host := fun _ : num => "1e+21" in
  let value := dec 10066 1000 in
  printable value = true /\
  JsFormat.formatPercentage host value = "10.07%" /\
  parseFloat (Some (JsFormat.formatPercentage host value)) = toFixed2 value.
Proof.
  split; [reflexivity|]. split; [reflexivity|].
  apply (formatPercentage_reads_back (fun _ : num => "1e+21") (dec 10066 1000)).
  reflexivity.
Defined.

(** X12.  The compact axis label: a value of at least 1000 is printed as the
    number of thousands rounded to the nearest integer (half up) followed by
    K, so that the label reads back as that integer; any other value (below
    1000, or NaN) is printed by the host's [toString]. *)
Theorem formatCompactNumber_label (host : num -> string) (value : num) :
  (ge value (ofZ 1000) = false ->
   JsFormat.formatCompactNumber host value = host value) /\
  (ge value (ofZ 1000) = true ->
   printable (div value (ofZ 1000)) = true ->
   JsFormat.formatCompactNumber host value
     = (JsFormat.toFixed host 0 (div value (ofZ 1000)) ++ "K")%string /\
   parseFloat (Some (JsFormat.formatCompactNumber host value))
     = match div value (ofZ 1000) with
       | Fin q => ofQ (roundTo 0 (this q))
       | other => other
       end).
Proof.
  unfold JsFormat.formatCompactNumber. split; intro Hge; rewrite Hge.
  - reflexivity.
  - intro Hp. split; [reflexivity|].
    rewrite (toFixed_reads_back host 0 _ "K" Hp eq_refl).
    destruct (div value (ofZ 1000)); reflexivity.
Qed.

Lemma formatCompactNumber_label_witness :
  let host := fun _ : num => "999" in
  let value := ofZ 12500 in
  ge value (ofZ 1000) = true /\
  printable (div value (ofZ 1000)) = true /\
  JsFormat.formatCompactNumber host value = "13K" /\
  parseFloat (Some (JsFormat.formatCompactNumber host value))
    = match div value (ofZ 1000) with
      | Fin q => ofQ (roundTo 0 (this q))
      | other => other
      end.
Proof.
  split; [reflexivity|]. split; [reflexivity|]. split; [reflexivity|].
  apply (formatCompactNumber_label (fun _ : num => "999") (ofZ 12500));
    reflexivity.
Defined.

(* ================================================================== *)
(** ** Further properties of the price batch *)

(** X13.  The price batch is all or nothing.  When it is fulfilled, all four
    requests were usable, both assets carry their prices and the BTC price in
    USD is neither zero nor NaN; when it is rejected, the message is always
    the same one; and one unusable request is enough to reject it. *)
Theorem fetchLivePrices_all_or_nothing
    (btcUsdFetch btcThbFetch : result (Response.t CoinMarket.t))
    (goldThbFetch goldUsdFetch : result (Response.t GoldItem.t)) :
  let batch :=
    fetchLivePrices btcUsdFetch btcThbFetch goldThbFetch goldUsdFetch in
  (forall r : LivePrices.t,
     batch = Ok r ->
     usable btcUsdFetch && usable btcThbFetch
       && usable goldThbFetch && usable goldUsdFetch = true /\
     completePrices (LivePrices.prices r) = true /\
     exists cp : CurrencyPrices.t,
       LiveAssetPriceData.btc (LivePrices.prices r) = Some cp /\
       truthy (PriceInfo.price (CurrencyPrices.usd cp)) = true) /\
  (forall msg : string,
     batch = Throw msg -> msg = "Could not fetch live prices.") /\
  (usable btcUsdFetch && usable btcThbFetch
     && usable goldThbFetch && usable goldUsdFetch = false ->
   batch = Throw "Could not fetch live prices.").
Proof.
  intro batch.
  assert (Hok : forall r : LivePrices.t,
     batch = Ok r ->
     usable btcUsdFetch && usable btcThbFetch
       && usable goldThbFetch && usable goldUsdFetch = true /\
     completePrices (LivePrices.prices r) = true /\
     exists cp : CurrencyPrices.t,
       LiveAssetPriceData.btc (LivePrices.prices r) = Some cp /\
       truthy (PriceInfo.price (CurrencyPrices.usd cp)) = true).
  { subst batch. unfold fetchLivePrices.
    destruct (fetchLivePricesBody btcUsdFetch btcThbFetch goldThbFetch
                goldUsdFetch) as [body|msg] eqn:Hbody; [|discriminate].
    intros r H. injection H as <-.
    unfold fetchLivePricesBody, bind, orThrow in Hbody.
    destruct btcUsdFetch as [r1|]; [|discriminate Hbody].
    destruct btcThbFetch as [r2|]; [|discriminate Hbody].
    destruct goldThbFetch as [r3|]; [|discriminate Hbody].
    destruct goldUsdFetch as [r4|]; [|discriminate Hbody].
    destruct r1 as [ok1 st1 f1], r2 as [ok2 st2 f2],
             r3 as [ok3 st3 f3], r4 as [ok4 st4 f4].
    cbn [Response.ok Response.status Response.first usable] in *.
    destruct ok1; [|discriminate Hbody]. destruct ok2; [|discriminate Hbody].
    destruct ok3; [|discriminate Hbody]. destruct ok4; [|discriminate Hbody].
    destruct f1 as [[p1|]|], f2 as [[p2|]|], f3 as [[p3|]|], f4 as [[p4|]|];
      try discriminate Hbody;
      cbn [CurrencyPrices.usd PriceInfo.price btcPriceInfo] in Hbody;
      destruct (truthy (CoinMarket.current_price p1)) eqn:Ht;
      destruct (strictEq (CoinMarket.current_price p1) zero);
      cbn [negb orb] in Hbody; try discriminate Hbody.
    injection Hbody as <-. split; [reflexivity|]. split; [reflexivity|].
    eexists. split; [reflexivity|]. exact Ht. }
  assert (Hthrow : forall msg : string,
            batch = Throw msg -> msg = "Could not fetch live prices.").
  { subst batch. unfold fetchLivePrices.
    destruct (fetchLivePricesBody btcUsdFetch btcThbFetch goldThbFetch
                goldUsdFetch); [discriminate|].
    intros m H. now injection H as <-. }
  split; [exact Hok|]. split; [exact Hthrow|].
  intro Hbad. destruct batch as [r|msg] eqn:Hb.
  - destruct (Hok r eq_refl) as [Hall _]. congruence.
  - now rewrite (Hthrow msg eq_refl).
Qed.

(** X15.  The applied conversion rate is never NaN, and it is exactly 1
    unless USD is selected and a rate that is neither null, zero nor NaN is
    stored. *)
Theorem conversionRate_is_defined (currency : Currency)
    (thbUsdRate : option num) :
  isNaN (App.conversionRate currency thbUsdRate) = false /\
  (App.conversionRate currency thbUsdRate <> one ->
   currency = USD /\ numTruthy thbUsdRate = true).
Proof.
  unfold App.conversionRate.
  destruct currency; [split; [reflexivity | congruence]|].
  destruct thbUsdRate as [r|]; [|split; [reflexivity | congruence]].
  cbn [numTruthy]. destruct (truthy r) eqn:Ht;
    [|split; [reflexivity | congruence]].
  split; [|auto].
  destruct r as [| | |t]; try reflexivity; try discriminate Ht.
  unfold div, one, ofZ, ofQ. destruct (sgn t); reflexivity.
Qed.

(* ================================================================== *)
(** ** Further properties of the displayed values *)

Lemma sliceLast_map {A B : Type} (g : A -> B) (n : nat) (l : list A) :
  App.sliceLast n (map g l) = map g (App.sliceLast n l).
Proof. unfold App.sliceLast. now rewrite length_map, skipn_map. Qed.

(** X16.  The time range only slices what the full range displays: the week
    view is the last 7 points of the full view and the month view its last
    30, for every bundle, rate and live price. *)
Theorem time_range_is_a_slice (currentAssetData : option DcaBundle.t)
    (rate : num) (live : option PriceInfo.t) :
  App.filteredChartData currentAssetData W rate live
    = App.sliceLast 7 (App.filteredChartData currentAssetData Y rate live) /\
  App.filteredChartData currentAssetData M rate live
    = App.sliceLast 30 (App.filteredChartData currentAssetData Y rate live).
Proof.
  unfold App.filteredChartData.
  destruct currentAssetData as [bundle|]; [|split; reflexivity].
  destruct (strTruthy (DcaBundle.error bundle)); [split; reflexivity|].
  rewrite !sliceLast_map. split; reflexivity.
Qed.

(** X17.  Under live blending the curve ends where the summary stands: for a
    non-empty record set whose total units is neither zero nor NaN, the last
    displayed chart point has the portfolio value of the live summary, in
    every time range and for every rate. *)
Theorem chart_end_matches_live_summary (dateLabel : JsDate -> string)
    (data : list RawTransaction.t) (range : TimeRange) (rate : num)
    (lp : PriceInfo.t) :
  data <> [] ->
  truthy (totalUnits data) = true ->
  let bundle := Some (processData dateLabel data) in
  let shown := App.filteredChartData bundle range rate (Some lp) in
  exists (pt : ChartDataPoint.t) (ls : SummaryData.t),
    nth_error shown (List.length shown - 1) = Some pt /\
    App.liveSummary bundle (Some lp) rate = Some ls /\
    ChartDataPoint.portValue pt = SummaryData.portValue ls.
Proof.
  intros Hne Htruthy bundle shown. subst bundle shown.
  destruct data as [|first rest] eqn:Hdata; [congruence|]. rewrite <- Hdata in *.
  assert (Herr : strTruthy (DcaBundle.error (processData dateLabel data)) = false)
    by now rewrite processData_error.
  assert (Hlen : (0 < List.length data)%nat) by (rewrite Hdata; cbn; lia).
  rewrite filteredChartData_nth by exact Herr.
  rewrite (filteredChartData_length _ range rate (Some lp) Herr).
  rewrite processData_chart_length.
  assert (Hidx : (rangeOffset range (List.length data)
                  + (match range with
                     | W => Nat.min 7 (List.length data)
                     | M => Nat.min 30 (List.length data)
                     | Y => List.length data
                     end - 1) = List.length data - 1)%nat)
    by (destruct range; cbn [rangeOffset]; lia).
  rewrite Hidx.
  pose proof (nth_error_last_row data first ltac:(congruence)) as Hlast.
  pose proof (chartScan_nth dateLabel data Totals.init _ _ Hlast) as Hpt.
  rewrite <- processData_chart in Hpt.
  replace (S (List.length data - 1)) with (List.length data) in Hpt by lia.
  rewrite !firstn_all in Hpt. cbv zeta in Hpt.
  change (fold_left add (map RawTransaction.assetPurchased data)
            (Totals.cumulativeAmount Totals.init))
    with (totalUnits data) in Hpt.
  rewrite Hpt.
  unfold App.liveSummary.
  rewrite (processData_summary dateLabel data first rest Hdata).
  do 2 eexists. split; [reflexivity|]. split; [reflexivity|].
  cbn [App.displayPoint ChartDataPoint.portValue ChartDataPoint.cumulativeAmount
       SummaryData.portValue SummaryData.totalAmount].
  now rewrite Htruthy.
Qed.

Lemma chart_end_matches_live_summary_witness :
  let lp := Sample.livePrice 70000 in
  Sample.rows <> [] /\
  truthy (totalUnits Sample.rows) = true /\
  let bundle := Some (processData Sample.dateLabel Sample.rows) in
  let shown := App.filteredChartData bundle W one (Some lp) in
  exists (pt : ChartDataPoint.t) (ls : SummaryData.t),
    nth_error shown (List.length shown - 1) = Some pt /\
    App.liveSummary bundle (Some lp) one = Some ls /\
    ChartDataPoint.portValue pt = SummaryData.portValue ls.
Proof.
  split; [discriminate|]. split; [reflexivity|].
  apply (chart_end_matches_live_summary Sample.dateLabel Sample.rows W one
           (Sample.livePrice 70000)); [discriminate | reflexivity].
Defined.

(** X18.  A live price equal to the last recorded price changes nothing: in
    the base currency (rate 1) the live summary is then the historical
    summary, field by field. *)
Theorem live_price_at_last_price_is_neutral (dateLabel : JsDate -> string)
    (data : list RawTransaction.t) (lastRow : RawTransaction.t)
    (lp : PriceInfo.t) :
  nth_error data (List.length data - 1) = Some lastRow ->
  PriceInfo.price lp = RawTransaction.assetPrice lastRow ->
  App.liveSummary (Some (processData dateLabel data)) (Some lp) one
  = DcaBundle.summaryData (processData dateLabel data).
Proof.
  intros Hlast Hprice.
  destruct data as [|first rest]; [discriminate Hlast|].
  pose proof (last_of_nth_error _ first lastRow Hlast) as Hl.
  unfold App.liveSummary.
  rewrite (processData_summary dateLabel (first :: rest) first rest eq_refl).
  cbv zeta. rewrite Hl, <- Hprice.
  cbn [SummaryData.totalCapital SummaryData.entryPrice SummaryData.totalAmount
       SummaryData.portValue SummaryData.profitPercentage
       SummaryData.startDate SummaryData.lastUpdated].
  rewrite !mul_one_r. reflexivity.
Qed.

Lemma live_price_at_last_price_is_neutral_witness :
  let lp := Sample.livePrice 60000 in
  nth_error Sample.rows (List.length Sample.rows - 1) = Some Sample.row1 /\
  PriceInfo.price lp = RawTransaction.assetPrice Sample.row1 /\
  App.liveSummary (Some (processData Sample.dateLabel Sample.rows)) (Some lp) one
  = DcaBundle.summaryData (processData Sample.dateLabel Sample.rows).
Proof.
  split; [reflexivity|]. split; [reflexivity|].
  apply (live_price_at_last_price_is_neutral Sample.dateLabel Sample.rows
           Sample.row1 (Sample.livePrice 60000)); reflexivity.
Defined.

(* ================================================================== *)
(** ** The profit bar *)

Lemma lt_Fin_false (a b : Qc) : lt (Fin a) (Fin b) = false <-> (b <= a)%Qc.
Proof.
  rewrite <- not_true_iff_false, lt_Fin. split.
  - apply Qcnot_lt_le.
  - intros H Hlt. exact (Qcle_not_lt _ _ H Hlt).
Qed.

Lemma half_shift_this (q : Qc) :
  (this (Q2Qc (inject_Z 50) + q / Q2Qc (inject_Z 2))%Qc == 50 + this q / 2)%Q.
Proof.
  rewrite Qcplus_this, Qcdiv_this, !Q2Qc_this. reflexivity.
Qed.

(** The bar of a finite profit percentage. *)
Lemma barWidth_Fin (q : Qc) :
  let x := (Q2Qc (inject_Z 50) + q / Q2Qc (inject_Z 2))%Qc in
  ProfitPanel.barWidth (Fin q) =
  if lt (Fin x) hundred
  then if lt zero (Fin x) then Fin x else zero
  else hundred.
Proof.
  cbv zeta. unfold ProfitPanel.barWidth. unfold ofZ, ofQ.
  rewrite (div_Fin_nonzero q (Q2Qc (inject_Z 2))) by discriminate.
  cbn [add]. unfold JsFormat.mathMin.
  change (isNaN hundred) with false. cbn [isNaN orb].
  destruct (lt (Fin _) hundred); [|reflexivity].
  unfold JsFormat.mathMax. change (isNaN zero) with false. cbn [isNaN orb].
  reflexivity.
Qed.

(** X20.  The width of the profit bar is NaN only for a NaN profit
    percentage; otherwise it lies between 0 and 100, it is 100 as soon as the
    profit percentage reaches 100 and 0 as soon as it falls to -100. *)
Theorem profit_bar_stays_in_range (profitPercentage : num) :
  (isNaN (ProfitPanel.barWidth profitPercentage) = isNaN profitPercentage) /\
  (isNaN profitPercentage = false ->
   le zero (ProfitPanel.barWidth profitPercentage) = true /\
   le (ProfitPanel.barWidth profitPercentage) hundred = true) /\
  (ge profitPercentage hundred = true ->
   ProfitPanel.barWidth profitPercentage = hundred) /\
  (le profitPercentage (neg hundred) = true ->
   ProfitPanel.barWidth profitPercentage = zero).
Proof.
  destruct profitPercentage as [| | |q].
  - repeat split; try reflexivity; discriminate.
  - repeat split; try reflexivity; discriminate.
  - repeat split; try reflexivity; discriminate.
  - rewrite barWidth_Fin. cbv zeta.
    set (x := (Q2Qc (inject_Z 50) + q / Q2Qc (inject_Z 2))%Qc).
    assert (Hx : (this x * 2 == 100 + this q)%Q).
    { subst x. rewrite half_shift_this. field. }
    clearbody x.
    unfold hundred, zero, ofZ, ofQ in *.
    destruct (lt (Fin x) (Fin (Q2Qc (inject_Z 100)))) eqn:H100.
    + apply lt_Fin in H100. unfold Qclt in H100. rewrite Q2Qc_this in H100.
      change (inject_Z 100) with 100%Q in H100.
      destruct (lt (Fin (Q2Qc (inject_Z 0))) (Fin x)) eqn:H0.
      * apply lt_Fin in H0. unfold Qclt in H0. rewrite Q2Qc_this in H0.
        change (inject_Z 0) with 0%Q in H0.
        split; [reflexivity|]. split; [|split].
        -- intros _. split; apply le_Fin; unfold Qcle; rewrite Q2Qc_this;
             [change (inject_Z 0) with 0%Q | change (inject_Z 100) with 100%Q];
             lra.
        -- unfold ge. intro Hge. apply le_Fin in Hge. unfold Qcle in Hge.
           rewrite Q2Qc_this in Hge. change (inject_Z 100) with 100%Q in Hge.
           exfalso. lra.
        -- intro Hle. apply le_Fin in Hle. unfold Qcle in Hle.
           rewrite Qcopp_this, Q2Qc_this in Hle.
           change (inject_Z 100) with 100%Q in Hle. exfalso. lra.
      * apply lt_Fin_false in H0. unfold Qcle in H0. rewrite Q2Qc_this in H0.
        change (inject_Z 0) with 0%Q in H0.
        split; [reflexivity|]. split; [|split].
        -- intros _. split; reflexivity.
        -- unfold ge. intro Hge. apply le_Fin in Hge. unfold Qcle in Hge.
           rewrite Q2Qc_this in Hge. change (inject_Z 100) with 100%Q in Hge.
           exfalso. lra.
        -- reflexivity.
    + apply lt_Fin_false in H100. unfold Qcle in H100.
      rewrite Q2Qc_this in H100. change (inject_Z 100) with 100%Q in H100.
      split; [reflexivity|]. split; [|split].
      * intros _. split; reflexivity.
      * reflexivity.
      * intro Hle. apply le_Fin in Hle. unfold Qcle in Hle.
        rewrite Qcopp_this, Q2Qc_this in Hle.
        change (inject_Z 100) with 100%Q in Hle. exfalso. lra.
Qed.

(* ================================================================== *)
(** ** Further properties of the component's states *)

Lemma step_keeps_data (s : App.State) (e : App.Event) :
  (App.allDcaData s <> None -> App.allDcaData (App.step s e) <> None) /\
  (App.livePrices s <> None -> App.livePrices (App.step s e) <> None) /\
  (App.thbUsdRate s <> None -> App.thbUsdRate (App.step s e) <> None).
Proof.
  destruct e as [now settled|now settled|now settled|a|c|r]; cbn [App.step].
  - unfold App.initialLoad. destruct settled as [[dca prices]|msg]; cbn;
      repeat split; auto; discriminate.
  - unfold App.handleRefresh. destruct (App.isRefreshing s); [tauto|].
    destruct settled as [[dca prices]|msg]; cbn;
      repeat split; auto; discriminate.
  - unfold App.tick. destruct settled as [prices|msg]; cbn;
      repeat split; auto; discriminate.
  - cbn. tauto.
  - cbn. tauto.
  - cbn. tauto.
Qed.

(** X21.  What the component has stored it never loses: once sheet data,
    live prices or the rate are stored, no sequence of loads, refreshes,
    price ticks (fulfilled or rejected) and selections sets them back to
    null. *)
Theorem stored_data_is_never_lost (events : list App.Event) (s : App.State) :
  (App.allDcaData s <> None ->
   App.allDcaData (fold_left App.step events s) <> None) /\
  (App.livePrices s <> None ->
   App.livePrices (fold_left App.step events s) <> None) /\
  (App.thbUsdRate s <> None ->
   App.thbUsdRate (fold_left App.step events s) <> None).
Proof.
  revert s. induction events as [|e rest IH]; intro s; [cbn; tauto|].
  cbn [fold_left]. destruct (step_keeps_data s e) as (Hd & Hp & Hr).
  destruct (IH (App.step s e)) as (IHd & IHp & IHr).
  repeat split; auto.
Qed.

Lemma complete_price_available (p : LiveAssetPriceData.t)
    (asset : AssetType) (currency : Currency) :
  completePrices p = true ->
  App.currentLivePrice (Some p) asset currency <> None.
Proof.
  unfold completePrices, App.currentLivePrice, LiveAssetPriceData.get.
  destruct (LiveAssetPriceData.btc p), (LiveAssetPriceData.gold p), asset;
    intro H; try discriminate H; discriminate.
Qed.

(** What holds of the states reached through events storing complete
    prices. *)
Lemma serviceReachable_invariant (s : App.State) :
  serviceReachable s ->
  (App.allDcaData s <> None -> App.livePrices s <> None) /\
  (forall p, App.livePrices s = Some p -> completePrices p = true).
Proof.
  induction 1 as [|s e Hreach [IHdata IHcomplete] He].
  - split; [intro H; now elim H | discriminate].
  - destruct e as [now settled|now settled|now settled|a|c|r];
      cbn [App.step].
    + unfold App.initialLoad. destruct settled as [[dca prices]|msg]; cbn in *.
      * split; [discriminate|]. intros p Hp. injection Hp as <-. exact He.
      * split; assumption.
    + unfold App.handleRefresh. destruct (App.isRefreshing s);
        [split; assumption|].
      destruct settled as [[dca prices]|msg]; cbn in *.
      * split; [discriminate|]. intros p Hp. injection Hp as <-. exact He.
      * split; assumption.
    + unfold App.tick. destruct settled as [prices|msg]; cbn in *.
      * split; [discriminate|]. intros p Hp. injection Hp as <-. exact He.
      * split; assumption.
    + cbn. split; assumption.
    + cbn. split; assumption.
    + cbn. split; assumption.
Qed.

(** X22.  As long as the stored prices are those of fulfilled price
    batches, which carry both assets, a state that holds sheet data holds a
    live price, and a per-gram price, for every asset and every currency.
    The live summary of the selected asset is then the live one: whenever the
    bundle has a summary, its portfolio value is total units x the live unit
    price, and the historical branch of [liveSummary] is not taken. *)
Theorem live_price_available_with_data (s : App.State)
    (asset : AssetType) (currency : Currency) :
  serviceReachable s ->
  App.allDcaData s <> None ->
  App.currentLivePrice (App.livePrices s) asset currency <> None /\
  App.livePricePerGram
    (App.currentLivePrice (App.livePrices s) asset currency) asset <> None /\
  (forall (bundle : DcaBundle.t) (sd : SummaryData.t),
     App.assetDataOf s = Some bundle ->
     DcaBundle.summaryData bundle = Some sd ->
     exists (per : PriceInfo.t) (ls : SummaryData.t),
       App.perGramOf s = Some per /\
       App.summaryOf s = Some ls /\
       SummaryData.portValue ls =
         mul (SummaryData.totalAmount sd) (PriceInfo.price per)).
Proof.
  intros Hreach Hdata.
  destruct (serviceReachable_invariant s Hreach) as [Hprices Hcomplete].
  destruct (App.livePrices s) as [p|] eqn:Hp; [|now elim (Hprices Hdata)].
  assert (Hper : forall a c,
            App.livePricePerGram (App.currentLivePrice (Some p) a c) a <> None).
  { intros a c.
    pose proof (complete_price_available p a c (Hcomplete p eq_refl)) as Hlive.
    destruct (App.currentLivePrice (Some p) a c) as [lp|]; [|congruence].
    destruct a; discriminate. }
  split; [exact (complete_price_available p asset currency
                   (Hcomplete p eq_refl))|].
  split; [apply Hper|].
  intros bundle sd Hbundle Hsd.
  pose proof (Hper (App.selectedAsset s) (App.currency s)) as Hsel.
  unfold App.summaryOf, App.perGramOf, App.livePriceOf. rewrite Hp.
  destruct (App.livePricePerGram
              (App.currentLivePrice (Some p) (App.selectedAsset s)
                 (App.currency s)) (App.selectedAsset s)) as [per|];
    [|congruence].
  unfold App.liveSummary. rewrite Hbundle, Hsd.
  exists per. eexists. split; [reflexivity|]. split; reflexivity.
Qed.

Lemma live_price_available_with_data_witness :
  let s :=
    App.step App.initial
      (App.InitialLoad Sample.now
         (App.promiseAll true Sample.sheetFetch (Sample.pricesFetch 70000))) in
  serviceReachable s /\
  App.allDcaData s <> None /\
  App.currentLivePrice (App.livePrices s) GOLD USD <> None /\
  App.livePricePerGram
    (App.currentLivePrice (App.livePrices s) GOLD USD) GOLD <> None /\
  (forall (bundle : DcaBundle.t) (sd : SummaryData.t),
     App.assetDataOf s = Some bundle ->
     DcaBundle.summaryData bundle = Some sd ->
     exists (per : PriceInfo.t) (ls : SummaryData.t),
       App.perGramOf s = Some per /\
       App.summaryOf s = Some ls /\
       SummaryData.portValue ls =
         mul (SummaryData.totalAmount sd) (PriceInfo.price per)).
Proof.
  assert (Hreach : serviceReachable
            (App.step App.initial
               (App.InitialLoad Sample.now
                  (App.promiseAll true Sample.sheetFetch
                     (Sample.pricesFetch 70000))))).
  { apply service_step; [apply service_initial|]. vm_compute. reflexivity. }
  assert (Hdata : App.allDcaData
            (App.step App.initial
               (App.InitialLoad Sample.now
                  (App.promiseAll true Sample.sheetFetch
                     (Sample.pricesFetch 70000)))) <> None).
  { vm_compute. discriminate. }
  split; [exact Hreach|]. split; [exact Hdata|].
  apply (live_price_available_with_data _ GOLD USD Hreach Hdata).
Defined.

(** X23.  The initial load stores everything or nothing.  From the initial
    state it ends with [loading] false, and the sheet data is stored exactly
    when both the sheet fetch and the price batch were fulfilled, together
    with the prices and the rate and without an error; otherwise nothing is
    stored and the same message is put in [error] and in [livePriceError]. *)
Theorem initial_load_is_all_or_nothing (now : JsDate) (leftFirst : bool)
    (sheet : result AllDca.t) (prices : result LivePrices.t) :
  let s :=
    App.initialLoad now (App.promiseAll leftFirst sheet prices) App.initial in
  App.loading s = false /\
  (App.allDcaData s <> None <->
   (exists d p, sheet = Ok d /\ prices = Ok p)) /\
  (App.allDcaData s <> None ->
   App.livePrices s <> None /\ App.thbUsdRate s <> None /\
   App.error s = None) /\
  (App.allDcaData s = None ->
   App.livePrices s = None /\ App.thbUsdRate s = None /\
   App.error s <> None /\ App.livePriceError s = App.error s).
Proof.
  destruct sheet as [d|m1], prices as [p|m2]; cbn.
  - split; [reflexivity|]. split.
    + split; [intros _; now exists d, p | discriminate].
    + split; [intros _; repeat split; discriminate | discriminate].
  - split; [reflexivity|]. split.
    + split; [intro H; now elim H | intros (d' & p' & _ & H); discriminate H].
    + split; [intro H; now elim H | intros _; repeat split; discriminate].
  - split; [reflexivity|]. split.
    + split; [intro H; now elim H | intros (d' & p' & H & _); discriminate H].
    + split; [intro H; now elim H | intros _; repeat split; discriminate].
  - split; [reflexivity|]. split.
    + split; [intro H; now elim H | intros (d' & p' & H & _); discriminate H].
    + split; [intro H; now elim H | intros _; repeat split; discriminate].
Qed.

Lemma at_out_of_range {A : Type} (l : list A) (i : Z) :
  Z.of_nat (List.length l) <= i -> at_ l i = None.
Proof.
  intro H. unfold at_. destruct (i <? 0); [reflexivity|].
  apply nth_error_None. lia.
Qed.

Lemma keepRow_NaN (d : RawTransaction.t) :
  isNaN (RawTransaction.invested d) = true \/
  isNaN (RawTransaction.assetPrice d) = true \/
  isNaN (RawTransaction.assetPurchased d) = true ->
  keepRow d = false.
Proof.
  intro H. apply not_true_iff_false. intro Hk. apply keepRow_spec in Hk.
  destruct Hk as (H1 & H2 & H3 & _). destruct H as [H|[H|H]]; congruence.
Qed.

(** X24.  A data line that has no cell under one of the three numeric columns
    is dropped: the missing cell reads as NaN.  In particular a blank line is
    dropped wherever the columns are. *)
Theorem short_row_is_dropped (dateParse : string -> JsDate)
    (dateIndex investedIndex priceIndex purchasedIndex : Z) (line : string) :
  (let cells := Z.of_nat (List.length (splitComma line)) in
   cells <= investedIndex \/ cells <= priceIndex \/ cells <= purchasedIndex ->
   keepRow (parseRow dateParse dateIndex investedIndex priceIndex
                     purchasedIndex line) = false) /\
  keepRow (parseRow dateParse dateIndex investedIndex priceIndex
                    purchasedIndex "") = false.
Proof.
  split.
  - intros cells H. subst cells. apply keepRow_NaN. unfold parseRow.
    cbn [RawTransaction.invested RawTransaction.assetPrice
         RawTransaction.assetPurchased].
    destruct H as [H|[H|H]]; [left | right; left | right; right];
      rewrite at_out_of_range by (rewrite length_map; exact H); reflexivity.
  - apply keepRow_NaN. left. unfold parseRow.
    cbn [RawTransaction.invested splitComma map].
    unfold at_. destruct (investedIndex <? 0); [reflexivity|].
    destruct (Z.to_nat investedIndex) as [|n]; [reflexivity|].
    destruct n; reflexivity.
Qed.

Lemma short_row_is_dropped_witness :
  let line := "2024-01-05,100" in
  let cells := Z.of_nat (List.length (splitComma line)) in
  (cells <= 1 \/ cells <= 2 \/ cells <= 3) /\
  keepRow (parseRow Sample.dateParse 0 1 2 3 line) = false.
Proof.
  assert (H : Z.of_nat (List.length (splitComma "2024-01-05,100")) <= 1
              \/ Z.of_nat (List.length (splitComma "2024-01-05,100")) <= 2
              \/ Z.of_nat (List.length (splitComma "2024-01-05,100")) <= 3).
  { right. left. vm_compute. discriminate. }
  split; [exact H|].
  apply (proj1 (short_row_is_dropped Sample.dateParse 0 1 2 3 "2024-01-05,100")).
  exact H.
Defined.
